(** * Retrieval and fusion pipeline: a shallow embedding

    This development embeds the document retrieval pipeline of the
    repository (the unified document model of [utils/types.py], the
    external adapter of [tools/searching/search_yandex.py] and the tool
    entry point of [tools/searching/search_tools.py]) and states the
    properties of its specification over that embedding.

    Conventions.
    - A Python [str] is a list of Unicode code points, so that [len] and
      slicing count characters, as in Python.
    - A [dict] with string keys is a [gmap string _]; the keys are the
      ASCII literals of the source.
    - A Python [float] that is finite is a rational; scores are [Q].
    - A call that can raise returns a [result]; a [try]/[except] is a
      [match] on it.
    - What the source obtains from a library or from the network
      (hashing, case mapping, URL validation, HTML parsing, HTTP) is a
      field of the environment record [Env]. *)

From Stdlib Require Import ZArith QArith List String Ascii Lia.
From Stdlib Require Import Sorting.Sorted Sorting.Permutation.
From stdpp Require Import base list strings gmap pretty.

Local Open Scope Z_scope.

(** ** Python strings *)

Module Py.

(** A character is a code point; a string is a sequence of them. *)
Definition char : Set := N.
Definition str : Set := list N.

(** Decoding of the UTF-8 bytes of a literal of this file into code points.
    [pending] counts the continuation bytes still expected and [acc] holds
    the bits read so far. *)
Fixpoint utf8_go (pending : nat) (acc : N) (bs : list N) : str :=
  match bs with
  | [] => []
  | b :: bs' =>
      if (b <? 128)%N then b :: utf8_go 0 0%N bs'
      else if (b <? 192)%N then
        let acc' := (acc * 64 + (b - 128))%N in
        match pending with
        | O => utf8_go 0 0%N bs'
        | S O => acc' :: utf8_go 0 0%N bs'
        | S p => utf8_go p acc' bs'
        end
      else if (b <? 224)%N then utf8_go 1 (b - 192)%N bs'
      else if (b <? 240)%N then utf8_go 2 (b - 224)%N bs'
      else utf8_go 3 (b - 240)%N bs'
  end.

Definition lit (s : string) : str :=
  utf8_go 0 0%N (map N_of_ascii (list_ascii_of_string s)).

(** [str(n)] for an [int], as an f-string renders it. *)
Definition str_of_int (n : Z) : str := lit (pretty n).

(** [str.isspace] on one character: the code points CPython lists in
    [_PyUnicode_IsWhitespace]. *)
Definition isspace (c : char) : bool :=
  ((9 <=? c) && (c <=? 13) || (28 <=? c) && (c <=? 32)
   || (c =? 133) || (c =? 160) || (c =? 5760)
   || (8192 <=? c) && (c <=? 8202)
   || (c =? 8232) || (c =? 8233) || (c =? 8239) || (c =? 8287)
   || (c =? 12288))%N.

(** [s.lstrip()], [s.rstrip()] and [s.strip()]. *)
Fixpoint lstrip (s : str) : str :=
  match s with
  | [] => []
  | c :: s' => if isspace c then lstrip s' else s
  end.

Definition rstrip (s : str) : str := rev (lstrip (rev s)).

Definition strip (s : str) : str := rstrip (lstrip s).

(** Truth value of a [str] and of an optional [str] ([None] and the empty
    string are false). *)
Definition truthy (s : str) : bool :=
  match s with [] => false | _ :: _ => true end.

Definition truthy_opt (o : option str) : bool :=
  match o with None => false | Some s => truthy s end.

(** [x or y] on optional strings. *)
Definition or_else (o : option str) (y : str) : str :=
  match o with
  | Some (c :: s) => c :: s
  | _ => y
  end.

(** The slice [l[:n]]: the first [n] elements, or all but the last [-n]
    when [n] is negative. *)
Definition slice_to {A : Type} (n : Z) (l : list A) : list A :=
  if 0 <=? n then firstn (Z.to_nat n) l
  else firstn (length l - Z.to_nat (- n)) l.

(** [sep.join(parts)]. *)
Fixpoint join (sep : str) (parts : list str) : str :=
  match parts with
  | [] => []
  | [p] => p
  | p :: ps => p ++ sep ++ join sep ps
  end.

(** [needle in s]. *)
Fixpoint starts_with (needle s : str) : bool :=
  match needle, s with
  | [], _ => true
  | _ :: _, [] => false
  | a :: n', b :: s' => (a =? b)%N && starts_with n' s'
  end.

Fixpoint contains (needle s : str) : bool :=
  starts_with needle s ||
  match s with
  | [] => false
  | _ :: s' => contains needle s'
  end.

(** [re.sub(r"\s+", " ", s)]: every maximal run of whitespace becomes one
    space. [in_run] tells whether the previous character was whitespace. *)
Fixpoint collapse_ws (in_run : bool) (s : str) : str :=
  match s with
  | [] => []
  | c :: s' =>
      if isspace c then
        if in_run then collapse_ws true s' else 32%N :: collapse_ws true s'
      else c :: collapse_ws false s'
  end.

(** Exceptions, by the classes the source distinguishes. *)
Inductive exn : Type :=
  | TimeoutError
  | ClientError (msg : str)
  | ValidationError
  | KeyError (key : string)
  | Exception (msg : str).

(** The outcome of a call: a value or a raised exception. *)
Inductive result (A : Type) : Type :=
  | Ok (a : A)
  | Raise (e : exn).

Arguments Ok {A} a.
Arguments Raise {A} e.

Definition bind {A B : Type} (r : result A) (k : A -> result B) : result B :=
  match r with
  | Ok a => k a
  | Raise e => Raise e
  end.

(** [try: r except Exception: handler]. *)
Definition try_except {A : Type} (r : result A) (handler : exn -> A) : A :=
  match r with
  | Ok a => a
  | Raise e => handler e
  end.

Fixpoint mapM {A B : Type} (f : A -> result B) (l : list A) : result (list B) :=
  match l with
  | [] => Ok []
  | a :: l' =>
      bind (f a) (fun b => bind (mapM f l') (fun bs => Ok (b :: bs)))
  end.

(** The text of an exception, as [f"{e}"] renders it. *)
Definition exn_text (e : exn) : str :=
  match e with
  | TimeoutError => []
  | ClientError m => m
  | ValidationError => lit "validation error"
  | KeyError k => lit k
  | Exception m => m
  end.

(** [sorted(l, key=key)] and [sorted(l, key=key, reverse=True)]. CPython
    sorts with a stable algorithm that compares keys with [<] only; with
    [reverse=True] it reverses the list, sorts it ascending and reverses
    the result, which keeps the elements of equal key in their original
    order. A stable insertion sort is the functional reading of it. *)
Definition Qltb (a b : Q) : bool := negb (Qle_bool b a).

Section Sorted.
Context {A : Type} (key : A -> Q).

Fixpoint insert_asc (x : A) (l : list A) : list A :=
  match l with
  | [] => [x]
  | y :: l' =>
      if Qltb (key y) (key x) then y :: insert_asc x l' else x :: y :: l'
  end.

Definition sort_asc (l : list A) : list A := foldr insert_asc [] l.

Definition sorted (reverse : bool) (l : list A) : list A :=
  if reverse then rev (sort_asc (rev l)) else sort_asc l.

End Sorted.

End Py.

Import Py.

Fixpoint str_eqb (a b : str) : bool :=
  match a, b with
  | [], [] => true
  | x :: a', y :: b' => (x =? y)%N && str_eqb a' b'
  | _, _ => false
  end.

(** [x in candidates] for strings. *)
Definition str_in (x : str) (candidates : list str) : bool :=
  existsb (str_eqb x) candidates.

(** ** The unified document model ([utils/types.py]) *)

Inductive DocSource : Set := SrcYandex | SrcInternal.

Inductive DocType : Set :=
  | Law | GovLetter | Court | Article | Faq | News | Forum | InternalDoc.

Record LawRef : Set := mkLawRef {
  code : str;
  article : option str;
  span : option str
}.

Record UnifiedDoc : Set := mkUnifiedDoc {
  title : str;
  snippet : option str;
  content : option str;
  url : str;
  source : DocSource;
  doc_type : DocType;
  score_raw : Q;
  score_rank : Q;
  law_refs : list LawRef;
  hash : str
}.

Record SearchResults : Set := mkSearchResults {
  docs : list UnifiedDoc;
  meta : list (string * str)
}.

(** [SearchResults()]. *)
Definition empty_results : SearchResults :=
  {| docs := []; meta := [] |}.

(** What [BeautifulSoup(html, "html.parser")] exposes to
    [_extract_title_from_html]: [soup.title.string], and the [content]
    attribute of the [og:title] and [twitter:title] meta tags. *)
Record Soup : Set := mkSoup {
  title_string : option str;
  og_title : option str;
  twitter_title : option str
}.

(** What the fallback of [_scrape_page] reads from the parsed page once
    the [script], [style], [header], [footer], [nav] and [aside] tags are
    removed: [get_text(separator="\n", strip=True)] and
    [soup.title.string]. *)
Record CleanSoup : Set := mkCleanSoup {
  visible_text : str;
  clean_title_string : option str
}.

(** The environment of one invocation: the library functions and the
    network the source calls.
    - [md5_hexdigest s] is [hashlib.md5(s.encode("utf-8")).hexdigest()];
    - [lower], [upper] are [str.lower], [str.upper];
    - [HttpUrl s] is pydantic's validation of [s] as an absolute http(s)
      URL: [None] when it raises [ValidationError], else the text of the
      validated URL;
    - [float_of_str] is [float(s)], [round2 x] is [round(x, 2)];
    - [BeautifulSoup], [clean_soup], [trafilatura_extract] and
      [re_law_refs] are the HTML parser, its use in the fallback, the
      main-content extractor and the scan of the citation pattern (the
      groups 1 and 2 of each match);
    - [get_links] is the search provider's client, [http_get] the GET of
      one page (the status and the decoded body, or the exception raised),
      [internal_run] the internal adapter [ActionSearch.run];
    - [score_policy] is the weight table of the ranking, which the
      specification leaves to the implementer. *)
Record Env : Type := mkEnv {
  md5_hexdigest : str -> str;
  lower : str -> str;
  upper : str -> str;
  HttpUrl : str -> option str;
  float_of_str : str -> result Q;
  round2 : Q -> Q;
  BeautifulSoup : str -> result Soup;
  clean_soup : str -> result CleanSoup;
  trafilatura_extract : str -> result (option str);
  re_law_refs : str -> list (str * option str);
  get_links : str -> Z -> result (list str);
  http_get : str -> result (Z * str);
  internal_run : str -> Z -> result SearchResults;
  score_policy : Q -> DocType -> bool -> Q
}.

(** The [url] argument of the constructor: a plain string, or an
    [HttpUrl] object (given by its text), which field validation accepts
    as it is. *)
Inductive url_arg : Set :=
  | UrlStr (s : str)
  | UrlObj (u : str).

Definition str_of_url_arg (a : url_arg) : str :=
  match a with UrlStr s => s | UrlObj u => u end.

Section Model.
Context (E : Env).

(** The digest [compute_hash] stores when no hash is supplied. *)
Definition hash_of (title_ url_ : str) : str :=
  md5_hexdigest E (lower E (title_ ++ lit "|" ++ url_)).

(** The [model_validator(mode="before")] of [UnifiedDoc]: a supplied,
    non-empty hash is kept; otherwise the hash is computed from the raw
    [title] and [str(url)]. *)
Definition compute_hash (title_ : str) (url_ : url_arg) (hash_ : str) : str :=
  if truthy hash_ then hash_
  else hash_of title_ (str_of_url_arg url_).

(** Field validation of [url: HttpUrl]. *)
Definition validate_url (a : url_arg) : result str :=
  match a with
  | UrlObj u => Ok u
  | UrlStr s =>
      match HttpUrl E s with
      | Some u => Ok u
      | None => Raise ValidationError
      end
  end.

(** [UnifiedDoc(title=..., snippet=..., content=..., url=..., source=...,
    doc_type=..., score_raw=..., law_refs=..., hash=...)]: the hash is
    computed before validation, [title] must have at least two
    characters ([min_length=2]) and [url] must validate. [score_rank]
    keeps its default. *)
Definition UnifiedDoc_new (title_ : str) (snippet_ content_ : option str)
    (url_ : url_arg) (source_ : DocSource) (doc_type_ : DocType)
    (score_raw_ : Q) (law_refs_ : list LawRef) (hash_ : str)
    : result UnifiedDoc :=
  let h := compute_hash title_ url_ hash_ in
  if (length title_ <? 2)%nat then Raise ValidationError
  else
    bind (validate_url url_) (fun u =>
      Ok {| title := title_; snippet := snippet_; content := content_;
            url := u; source := source_; doc_type := doc_type_;
            score_raw := score_raw_; score_rank := 0%Q;
            law_refs := law_refs_; hash := h |}).
End Model.

(** ** Dictionaries with string keys *)

Abbreviation dict := (gmap string str).

(** [d.get(k)], [d.get(k, default)], [d[k]] and a literal entry. *)
Definition get (d : dict) (k : string) : option str := d !! k.

Definition get_or (d : dict) (k : string) (default : str) : str :=
  match d !! k with Some v => v | None => default end.

Definition getitem (d : dict) (k : string) : result str :=
  match d !! k with Some v => Ok v | None => Raise (KeyError k) end.

Definition entry (k : string) (v : str) (d : dict) : dict := <[k := v]> d.

(** ** The external adapter ([tools/searching/search_yandex.py]) *)

(** The literals of the adapter. *)
Definition NO_TITLE : str := lit "Без заголовка".
Definition ERROR_TITLE : str := lit "Ошибка".

(** [normalize_whitespace]. *)
Definition normalize_whitespace (s : str) : str :=
  collapse_ws false (strip s).

(** [_infer_doc_type]: the first matching substring of the URL decides. *)
Definition _infer_doc_type (r : dict) : DocType :=
  let url_ := get_or r "url" [] in
  if contains (lit "consultant.ru") url_ || contains (lit "garant.ru") url_
  then Law
  else if contains (lit "nalog.gov.ru") url_ || contains (lit "minfin.gov.ru") url_
  then GovLetter
  else if contains (lit "sudact.ru") url_ then Court
  else if contains (lit "forum") url_ then Forum
  else if contains (lit "news") url_ then News
  else Article.

(** What [asyncio.gather] with [return_exceptions=True] holds for one
    task: the page the task returned, the [Exception] it raised, or an
    exception it ended with that is no [Exception] (a [BaseException]
    such as [asyncio.CancelledError], named by its class). *)
Inductive gathered : Type :=
  | Returned (page_data : dict)
  | RaisedException (e : exn)
  | RaisedBase (name : str).

Definition gather_of (r : result dict) : gathered :=
  match r with
  | Ok page_data => Returned page_data
  | Raise e => RaisedException e
  end.

Section Adapter.
Context (E : Env).

(** [_extract_title_from_html]: the text of [<title>] when it is not
    blank, else the [og:title], else the [twitter:title], else the
    placeholder; any exception gives the placeholder. *)
Definition title_from_meta (soup : Soup) : str :=
  if truthy_opt (og_title soup) then strip (or_else (og_title soup) [])
  else if truthy_opt (twitter_title soup)
  then strip (or_else (twitter_title soup) [])
  else NO_TITLE.

Definition _extract_title_from_html (html : str) : str :=
  match BeautifulSoup E html with
  | Raise _ => NO_TITLE
  | Ok soup =>
      if truthy_opt (title_string soup) then
        let t := strip (or_else (title_string soup) []) in
        if truthy t then t else title_from_meta soup
      else title_from_meta soup
  end.

(** [_extract_law_refs]: the citation pattern is scanned over the title,
    the snippet and the content joined by spaces. *)
Definition _extract_law_refs (r : dict) : list LawRef :=
  let text :=
    join (lit " ")
      [get_or r "title" []; get_or r "snippet" []; get_or r "content" []] in
  map (fun m => {| code := upper E (fst m); article := snd m; span := None |})
      (re_law_refs E text).

(** The page a fetch returns: [{"title": ..., "content": ...}]. *)
Definition page (title_ content_ : str) : dict :=
  entry "title" title_ (entry "content" content_ ∅).

(** The second half of [_scrape_page], once the body is read. *)
Definition extract_page (html : str) : dict :=
  let title_ := _extract_title_from_html html in
  let extracted : option str :=
    match trafilatura_extract E html with
    | Ok (Some s) => Some s
    | Ok None => Some []
    | Raise _ => None
    end in
  if truthy_opt extracted then
    page title_ (normalize_whitespace (or_else extracted []))
  else
    match clean_soup E html with
    | Ok soup =>
        let content_ := normalize_whitespace (visible_text soup) in
        let title' :=
          if (negb (truthy title_) || str_eqb title_ NO_TITLE)
             && truthy_opt (clean_title_string soup)
          then
            let t := strip (or_else (clean_title_string soup) []) in
            if truthy t then t else NO_TITLE
          else title_ in
        page title' content_
    | Raise e =>
        page ERROR_TITLE (lit "Ошибка при обработке HTML: " ++ exn_text e)
    end.

(** [YandexSearch._scrape_page]: every [except] clause returns a page,
    so does a status other than 200. *)
Definition _scrape_page (url_ : str) : result dict :=
  match http_get E url_ with
  | Ok (status, html) =>
      if negb (status =? 200) then
        Ok (page ERROR_TITLE (lit "HTTP статус: " ++ str_of_int status))
      else Ok (extract_page html)
  | Raise TimeoutError =>
      Ok (page ERROR_TITLE (lit "Тайм-аут при загрузке " ++ url_))
  | Raise (ClientError m) =>
      Ok (page ERROR_TITLE
            (lit "Ошибка aiohttp при загрузке " ++ url_ ++ lit ": " ++ m))
  | Raise e =>
      Ok (page ERROR_TITLE
            (lit "Неожиданная ошибка при загрузке " ++ url_ ++ lit ": "
             ++ exn_text e))
  end.

(** One scraped item: [{"title": ..., "url": link, "content": ...}]. *)
Definition item (link : str) (page_data : dict) : dict :=
  entry "title" (get_or page_data "title" NO_TITLE)
    (entry "url" link
       (entry "content" (get_or page_data "content" []) ∅)).

(** The collection loop of [search]: links and gathered results are
    walked in pairs. A result for which
    [isinstance(page_data, Exception)] holds is logged and skipped. Any
    other result is read with [.get]: for a page this gives its item,
    for an exception that is no [Exception] it raises [AttributeError],
    which ends the loop. *)
Fixpoint collect (links : list str) (pages : list gathered)
    : result (list dict) :=
  match links, pages with
  | link :: links', Returned page_data :: pages' =>
      bind (collect links' pages')
        (fun items => Ok (item link page_data :: items))
  | _ :: links', RaisedException _ :: pages' => collect links' pages'
  | _ :: _, RaisedBase name :: _ =>
      Raise (Exception (lit "AttributeError: '" ++ name
                        ++ lit "' object has no attribute 'get'"))
  | _, _ => Ok []
  end.

(** [search] over a given page task: [asyncio.gather] with
    [return_exceptions=True] runs the task on every non-empty link and
    returns each value or exception in the order of the links. The whole
    body is in a [try]: an exception of the provider call, or one raised
    by the collection loop, gives the empty list. *)
Definition search_with (task : str -> gathered) (query : str)
    (num_results : Z) : list dict :=
  match get_links E query num_results with
  | Raise _ => []
  | Ok links =>
      if negb (match links with [] => false | _ => true end) then []
      else
        let pages := map task (List.filter truthy links) in
        try_except (collect (List.filter truthy links) pages) (fun _ => [])
  end.

(** The task [search] gathers: [_scrape_page] on the link. *)
Definition scrape_task (link : str) : gathered :=
  gather_of (_scrape_page link).

(** [YandexSearch.search]. *)
Definition search (query : str) (num_results : Z) : list dict :=
  search_with scrape_task query num_results.

(** The document [run] builds from one item. *)
Definition doc_of_item (r : dict) : result UnifiedDoc :=
  bind (getitem r "title") (fun title_ =>
  bind (getitem r "url") (fun link =>
  bind (match HttpUrl E link with
        | Some u => Ok (UrlObj u)
        | None => Raise ValidationError
        end) (fun url_ =>
  bind (match get r "score" with
        | Some s => float_of_str E s
        | None => Ok 0%Q
        end) (fun score_raw_ =>
  UnifiedDoc_new E title_ (get r "snippet") (get r "content") url_
    SrcYandex (_infer_doc_type r) score_raw_ (_extract_law_refs r) [])))).

(** [YandexSearch.run] over a given page task, and [run] itself. *)
Definition run_with (task : str -> gathered) (query : str) (size : Z)
    : result SearchResults :=
  let raw := search_with task query size in
  bind (mapM doc_of_item raw) (fun docs_ =>
    Ok {| docs := docs_;
          meta := [("provider"%string, lit "yandex");
                   ("count"%string, str_of_int (Z.of_nat (length docs_)))] |}).

Definition run (query : str) (size : Z) : result SearchResults :=
  run_with scrape_task query size.
End Adapter.

(** ** The tool entry point ([tools/searching/search_tools.py]) *)

(** The interface of [NormalizeMergeRerank] that [search_documents] uses:
    the class lives in [agents/jur_agent/nodes/normalize_merge.py], which
    is not among the sources, so the entry point is stated over any
    object with these two methods. *)
Record NormalizeMergeRerank : Type := mkNMR {
  _dedup : list UnifiedDoc -> list UnifiedDoc;
  _score : UnifiedDoc -> UnifiedDoc
}.

(** One formatted document of the answer. *)
Record formatted_doc : Set := mkFormatted {
  f_title : str;
  f_url : str;
  f_snippet : str;
  f_source : DocSource;
  f_doc_type : DocType;
  f_score : Q
}.

(** The values of the returned mapping. *)
Inductive value : Set :=
  | VStr (s : str)
  | VInt (n : Z)
  | VDocs (l : list formatted_doc).

Definition ventry (k : string) (v : value) (d : gmap string value)
    : gmap string value := <[k := v]> d.

(** A backend invocation, with its arguments. *)
Inductive call : Set :=
  | CallYandex (query : str) (size : Z)
  | CallInternal (query : str) (size : Z).

(** The three accepted values of [source]. *)
Definition SOURCES : list str := [lit "internal"; lit "yandex"; lit "both"].

Section Tool.
Context (E : Env) (nmr : NormalizeMergeRerank).

(** The validation of [query]: [not query or not query.strip()]. *)
Definition blank (query : str) : bool :=
  negb (truthy query) || negb (truthy (strip query)).

(** The clamp of [limit] and the coercion of [source]. *)
Definition clamp_limit (limit : Z) : Z :=
  if limit <? 1 then 1 else if limit >? 10 then 10 else limit.

Definition coerce_source (source_ : str) : str :=
  if str_in source_ SOURCES then source_ else lit "both".

(** [safe_yandex_search] and [safe_internal_search]: the backend is
    invoked only when selected; an exception of the invocation leaves
    the empty [SearchResults()]. Each returns the results and the
    invocations it made. *)
Definition safe_yandex_search (query source_ : str) (limit : Z)
    : SearchResults * list call :=
  if str_in source_ [lit "yandex"; lit "both"] then
    (try_except (run E query limit) (fun _ => empty_results),
     [CallYandex query limit])
  else (empty_results, []).

Definition safe_internal_search (query source_ : str) (limit : Z)
    : SearchResults * list call :=
  if str_in source_ [lit "internal"; lit "both"] then
    (try_except (internal_run E query limit) (fun _ => empty_results),
     [CallInternal query limit])
  else (empty_results, []).

(** The merge: the internal documents, then the external ones. *)
Definition merge (source_ : str) (internal_results yandex_results : SearchResults)
    : list UnifiedDoc :=
  (if str_in source_ [lit "internal"; lit "both"]
   then docs internal_results else [])
  ++ (if str_in source_ [lit "yandex"; lit "both"]
      then docs yandex_results else []).

(** Deduplication, scoring, the descending sort on [score_rank] and the
    slice [[:limit]]. *)
Definition scored (all_docs : list UnifiedDoc) : list UnifiedDoc :=
  map (_score nmr) (_dedup nmr all_docs).

Definition rank (limit : Z) (all_docs : list UnifiedDoc) : list UnifiedDoc :=
  slice_to limit (sorted score_rank true (scored all_docs)).

(** The snippet of a formatted document:
    [doc.snippet or doc.content[:200] if doc.content else ""], where the
    conditional expression binds weaker than [or]. *)
Definition format_snippet (doc : UnifiedDoc) : str :=
  if truthy_opt (content doc)
  then or_else (snippet doc) (slice_to 200 (or_else (content doc) []))
  else [].

Definition format_doc (doc : UnifiedDoc) : formatted_doc :=
  {| f_title := title doc;
     f_url := url doc;
     f_snippet := format_snippet doc;
     f_source := source doc;
     f_doc_type := doc_type doc;
     f_score := round2 E (score_rank doc) |}.

(** The documents merged for a non-blank query, and those ranked. *)
Definition merged (query source_ : str) (limit : Z) : list UnifiedDoc :=
  let limit' := clamp_limit limit in
  let source' := coerce_source source_ in
  merge source'
    (fst (safe_internal_search query source' limit'))
    (fst (safe_yandex_search query source' limit')).

Definition ranked (query source_ : str) (limit : Z) : list UnifiedDoc :=
  rank (clamp_limit limit) (merged query source_ limit).

(** [search_documents]: the returned mapping, and the backend
    invocations in the order they are submitted to the pool. The
    constructors [AppConfig()], [YandexSearch()], [ActionSearch()] and
    [NormalizeMergeRerank(cfg=cfg)] are taken to return. *)
Definition search_documents (query source_ : str) (limit : Z)
    : gmap string value * list call :=
  if blank query then
    (ventry "documents" (VDocs [])
       (ventry "total_found" (VInt 0)
          (ventry "query" (VStr query)
             (ventry "source" (VStr source_)
                (ventry "internal_docs" (VDocs [])
                   (ventry "yandex_docs" (VDocs [])
                      (ventry "merged_docs" (VDocs []) ∅)))))),
     [])
  else
    let limit' := clamp_limit limit in
    let source' := coerce_source source_ in
    let '(yandex_results, yandex_calls) :=
      safe_yandex_search query source' limit' in
    let '(internal_results, internal_calls) :=
      safe_internal_search query source' limit' in
    let all_docs := merge source' internal_results yandex_results in
    let ranked_ := rank limit' all_docs in
    (ventry "documents" (VDocs (map format_doc ranked_))
       (ventry "total_found" (VInt (Z.of_nat (length ranked_)))
          (ventry "query" (VStr query)
             (ventry "source" (VStr source') ∅))),
     yandex_calls ++ internal_calls).
End Tool.

(** Modelled from the spec: [NormalizeMergeRerank._dedup] and
    [NormalizeMergeRerank._score], whose module
    [agents/jur_agent/nodes/normalize_merge.py] is missing from the
    sources. Deduplication groups by the document hash and keeps the
    first occurrence in merge order; scoring sets [score_rank] from
    [score_raw], [doc_type] and the presence of [law_refs], and nothing
    else. *)
Fixpoint dedup_from (seen : gset str) (docs_ : list UnifiedDoc) : list UnifiedDoc :=
  match docs_ with
  | [] => []
  | d :: rest =>
      if decide (hash d ∈ seen) then dedup_from seen rest
      else d :: dedup_from ({[hash d]} ∪ seen) rest
  end.

Definition spec_dedup (docs_ : list UnifiedDoc) : list UnifiedDoc :=
  dedup_from ∅ docs_.

Definition spec_score (E : Env) (d : UnifiedDoc) : UnifiedDoc :=
  {| title := title d; snippet := snippet d; content := content d;
     url := url d; source := source d; doc_type := doc_type d;
     score_raw := score_raw d;
     score_rank :=
       score_policy E (score_raw d) (doc_type d)
         (match law_refs d with [] => false | _ => true end);
     law_refs := law_refs d; hash := hash d |}.

Definition spec_nmr (E : Env) : NormalizeMergeRerank :=
  {| _dedup := spec_dedup; _score := spec_score E |}.

(** Reading the returned mapping: [r.get(k)] and the list under
    ["documents"]. *)
Definition field (r : gmap string value) (k : string) : option value := r !! k.

Definition documents_of (r : gmap string value) : list formatted_doc :=
  match r !! "documents"%string with
  | Some (VDocs l) => l
  | _ => []
  end.

(** The keys of the mapping returned for a non-blank query, and the keys
    the mapping returned for a blank query has besides. *)
Definition RESULT_KEYS : gset string :=
  list_to_set ["documents"; "total_found"; "query"; "source"]%string.

Definition BLANK_ONLY_KEYS : gset string :=
  list_to_set ["internal_docs"; "yandex_docs"; "merged_docs"]%string.

(** The keys of a scraped item. *)
Definition ITEM_KEYS : gset string :=
  list_to_set ["title"; "url"; "content"]%string.

(** The entry the collection loop of [search] keeps for a link: the item
    of the page when the task returned one, nothing when it raised. *)
Definition kept (task : str -> gathered) (link : str) : option dict :=
  match task link with
  | Returned page_data => Some (item link page_data)
  | _ => None
  end.

(** Some task of the links ended with an exception that is no
    [Exception]. *)
Definition any_base (task : str -> gathered) (links : list str) : bool :=
  existsb (fun link =>
             match task link with RaisedBase _ => true | _ => false end)
    links.

(** ** A concrete environment

    A small instance of [Env] on which the model runs: case mapping on
    the ASCII letters, the identity as digest, URLs accepted when they
    start with [http://] or [https://], two links of which one times out,
    and an internal backend that returns three documents, two of them
    with the same title and URL. *)

Module Demo.

Definition lower_char (c : char) : char :=
  if ((65 <=? c) && (c <=? 90))%N then (c + 32)%N else c.

Definition upper_char (c : char) : char :=
  if ((97 <=? c) && (c <=? 122))%N then (c - 32)%N else c.

Definition http_url (s : str) : option str :=
  if starts_with (lit "http://") s || starts_with (lit "https://") s
  then Some s else None.

Definition fetch (url_ : str) : result (Z * str) :=
  if contains (lit "slow") url_ then Raise TimeoutError
  else if contains (lit "missing") url_ then Ok (404, [])
  else Ok (200, lit "Cash operations  rules").

Definition digest (s : str) : str := s.

Definition doc (title_ : str) (snippet_ content_ : option str) (url_ : str)
    (raw : Q) : UnifiedDoc :=
  {| title := title_; snippet := snippet_; content := content_; url := url_;
     source := SrcInternal; doc_type := InternalDoc; score_raw := raw;
     score_rank := 0%Q; law_refs := [];
     hash := digest (map lower_char (title_ ++ lit "|" ++ url_)) |}.

Definition doc1 : UnifiedDoc :=
  doc (lit "Cash Rules") (Some (lit "first")) (Some (lit "body one"))
      (lit "http://kb.example/1") 1%Q.

Definition doc2 : UnifiedDoc :=
  doc (lit "cash rules") (Some (lit "second")) (Some (lit "body two"))
      (lit "http://kb.example/1") 5%Q.

Definition doc3 : UnifiedDoc :=
  doc (lit "VAT letter") (Some (lit "VAT at 20")) None
      (lit "http://kb.example/2") 3%Q.

Definition internal_docs : list UnifiedDoc := [doc1; doc2; doc3].

Definition weight (raw : Q) (ty : DocType) (has_refs : bool) : Q :=
  (raw + (match ty with Law | GovLetter => 2 | _ => 0 end)
   + (if has_refs then 1 else 0))%Q.

Definition env : Env :=
  {| md5_hexdigest := digest;
     lower := map lower_char;
     upper := map upper_char;
     HttpUrl := http_url;
     float_of_str := fun _ => Raise (Exception []);
     round2 := fun x => x;
     BeautifulSoup := fun _ =>
       Ok {| title_string := Some (lit " Cash page ");
             og_title := None; twitter_title := None |};
     clean_soup := fun html =>
       Ok {| visible_text := html; clean_title_string := None |};
     trafilatura_extract := fun html => Ok (Some html);
     re_law_refs := fun _ => [];
     get_links := fun _ _ =>
       Ok [lit "http://consultant.ru/doc"; lit "http://slow.example/page"];
     http_get := fetch;
     internal_run := fun _ _ =>
       Ok {| docs := internal_docs; meta := [] |};
     score_policy := weight |}.


(** What the external adapter returns in this environment, and its first
    document. *)
Definition yandex_results : SearchResults :=
  Eval vm_compute in
    try_except (run env (lit "cash") 5) (fun _ => empty_results).

Definition law_doc : UnifiedDoc := hd doc1 (docs yandex_results).

End Demo.

(** ** The rest of the adapter and the utilities *)

(** A string starts (ends) with no whitespace; [spaced prev s] holds when
    every whitespace character of [s] is a space that follows no
    whitespace, [prev] telling whether whitespace precedes [s]. *)
Definition hd_ok (s : str) : bool :=
  match s with [] => true | c :: _ => negb (isspace c) end.

Definition last_ok (s : str) : bool := hd_ok (rev s).

Fixpoint spaced (prev : bool) (s : str) : bool :=
  match s with
  | [] => true
  | c :: s' =>
      if isspace c then negb prev && (c =? 32)%N && spaced true s'
      else spaced false s'
  end.

(** [_get_proxy_config]: the first of [HTTP_PROXY] and [HTTPS_PROXY] that
    [os.getenv] gives a non-empty value for; [environ] is the process
    environment. *)
Fixpoint first_proxy (environ : gmap string str) (vars : list string)
    : option str :=
  match vars with
  | [] => None
  | proxy_var :: rest =>
      match environ !! proxy_var with
      | Some proxy_url =>
          if truthy proxy_url then Some proxy_url
          else first_proxy environ rest
      | None => first_proxy environ rest
      end
  end.

Definition _get_proxy_config (environ : gmap string str) : option str :=
  first_proxy environ ["HTTP_PROXY"; "HTTPS_PROXY"]%string.

(** [YandexSearch._format_results]: the text of the results for the
    language model, one numbered block per item; the characters 10 and 34
    are the line feed and the double quote. *)
Definition NL : str := [10%N].
Definition QUOTES : str := [34%N; 34%N; 34%N].
Definition NO_RESULTS : str := lit "Поиск в Yandex не дал результатов.".

Definition format_block (i : Z) (item_ : dict) : str :=
  let title_ := get_or item_ "title" NO_TITLE in
  let url_ := get_or item_ "url" (lit "Ссылка отсутствует") in
  let content_ := get_or item_ "content" (lit "Содержимое отсутствует") in
  (lit "Источник #" ++ str_of_int i ++ lit ":" ++ NL)
  ++ (lit "  Название: " ++ title_ ++ NL)
  ++ (lit "  Ссылка: " ++ url_ ++ NL)
  ++ (lit "  Содержимое:" ++ NL ++ QUOTES ++ NL ++ content_ ++ NL ++ QUOTES
      ++ NL ++ NL).

Fixpoint format_from (i : Z) (results : list dict) : str :=
  match results with
  | [] => []
  | item_ :: rest => format_block i item_ ++ format_from (i + 1) rest
  end.

Definition _format_results (results : list dict) : str :=
  match results with
  | [] => NO_RESULTS
  | _ :: _ => format_from 1 results
  end.

(** [generate_unique_name] of [utils/utils.py]: the backslash, the
    slash, the asterisk, the question mark, the colon, the double quote,
    the angle brackets and the vertical bar are removed from the query,
    the first 50 characters are kept and the spaces become underscores;
    [timestamp] is the formatted current time. *)
Definition forbidden (c : char) : bool :=
  existsb (N.eqb c) [92; 47; 42; 63; 58; 34; 60; 62; 124]%N.

Definition safe_query (query : str) : str :=
  slice_to 50 (List.filter (fun c => negb (forbidden c)) query).

Definition replace_space (s : str) : str :=
  map (fun c => if (c =? 32)%N then 95%N else c) s.

Definition generate_unique_name (timestamp query : str) : str :=
  timestamp ++ lit "_" ++ replace_space (safe_query query).

(** The sizes of [config.py], and the fragment [extract_answers] of
    [agent/nodes.py] analyses and stores for a document content: the
    content is cut to [CHUNK_SIZE] characters when it is longer, and the
    fragment stored is the slice [[:MAX_FRAGMENT_SIZE]] of what was
    analysed. *)
Definition CHUNK_SIZE : Z := 8000.
Definition MAX_FRAGMENT_SIZE : Z := 10000.

Definition analysed_content (content_ : str) : str :=
  if Z.of_nat (length content_) >? CHUNK_SIZE
  then slice_to CHUNK_SIZE content_ else content_.

Definition stored_fragment (content_ : str) : str :=
  slice_to MAX_FRAGMENT_SIZE (analysed_content content_).

(** ** More environments

    A variant of the concrete environment with other links for the
    provider. *)

Module Cases.

Definition with_links (E : Env) (links : result (list str)) : Env :=
  {| md5_hexdigest := md5_hexdigest E; lower := lower E; upper := upper E;
     HttpUrl := HttpUrl E; float_of_str := float_of_str E;
     round2 := round2 E; BeautifulSoup := BeautifulSoup E;
     clean_soup := clean_soup E;
     trafilatura_extract := trafilatura_extract E;
     re_law_refs := re_law_refs E;
     get_links := fun _ _ => links;
     http_get := http_get E;
     internal_run := internal_run E;
     score_policy := score_policy E |}.




(** The provider returns a link that is no http(s) URL, so [run] raises. *)
Definition bad_link : Env :=
  with_links Demo.env (Ok [lit "ftp://files.example/doc"]).

End Cases.

(** * Properties *)

(** ** Strings *)

Lemma str_eqb_eq (a b : str) : str_eqb a b = true <-> a = b.
Proof.
  revert b. induction a as [|x a IH]; intros [|y b]; simpl; split;
    try congruence; try reflexivity.
  - intros H. apply andb_true_iff in H as [Hx Hab].
    apply N.eqb_eq in Hx. apply IH in Hab. congruence.
  - intros H. injection H as -> ->. apply andb_true_iff. split.
    + apply N.eqb_refl.
    + apply IH. reflexivity.
Qed.



Lemma lstrip_all_space (s : str) : forallb isspace s = true -> lstrip s = [].
Proof.
  induction s as [|c s IH]; simpl; [reflexivity|].
  intros H. apply andb_true_iff in H as [Hc Hs]. rewrite Hc. auto.
Qed.

Lemma blank_all_space (query : str) :
  forallb isspace query = true -> blank query = true.
Proof.
  intros H. unfold blank, strip. rewrite (lstrip_all_space _ H).
  destruct query; reflexivity.
Qed.

(** ** The sort *)



Section SortFacts.
Context {A : Type} (key : A -> Q).











End SortFacts.

(** ** Slices and the clamp *)


Lemma slice_to_nonneg {A : Type} (n : Z) (l : list A) :
  0 <= n -> slice_to n l = firstn (Z.to_nat n) l.
Proof.
  intros H. unfold slice_to. apply Z.leb_le in H. rewrite H. reflexivity.
Qed.

Lemma In_firstn_In {A : Type} (m : nat) (l : list A) (x : A) :
  In x (firstn m l) -> In x l.
Proof.
  intros H. rewrite <- (firstn_skipn m l). apply in_or_app. left. exact H.
Qed.


Lemma clamp_limit_range (limit : Z) : 1 <= clamp_limit limit <= 10.
Proof.
  unfold clamp_limit.
  destruct (limit <? 1) eqn:H1; [lia|].
  destruct (limit >? 10) eqn:H2; [lia|].
  apply Z.ltb_ge in H1. rewrite Z.gtb_ltb in H2. apply Z.ltb_ge in H2. lia.
Qed.

Lemma clamp_limit_max_min (limit : Z) :
  clamp_limit limit = Z.max 1 (Z.min 10 limit).
Proof.
  unfold clamp_limit.
  destruct (limit <? 1) eqn:H1.
  - apply Z.ltb_lt in H1. lia.
  - apply Z.ltb_ge in H1. rewrite Z.gtb_ltb.
    destruct (10 <? limit) eqn:H2.
    + apply Z.ltb_lt in H2. lia.
    + apply Z.ltb_ge in H2. lia.
Qed.

(** ** Deduplication *)





(** Every hash of the list that was not seen before is represented. *)
Lemma dedup_from_complete (seen : gset str) (l : list UnifiedDoc) (d : UnifiedDoc) :
  In d l -> hash d ∉ seen ->
  exists d', In d' (dedup_from seen l) /\ hash d' = hash d.
Proof.
  revert seen. induction l as [|x l IH]; simpl; intros seen H Hd; [contradiction|].
  destruct (decide (hash x ∈ seen)) as [Hin|Hout].
  - destruct H as [->|H]; [contradiction|]. eapply IH; eassumption.
  - destruct H as [->|H]; [exists d; simpl; auto|].
    destruct (decide (hash d = hash x)) as [Heq|Hne].
    + exists x. simpl. auto.
    + destruct (IH ({[hash x]} ∪ seen) H) as (d' & Hd' & Hh).
      { intros Hs. apply elem_of_union in Hs as [Hs|Hs]; [|contradiction].
        apply elem_of_singleton in Hs. contradiction. }
      exists d'. simpl. auto.
Qed.

(** The deduplicated list is a subsequence of the merged one. *)
Lemma dedup_from_sublist (seen : gset str) (l : list UnifiedDoc) :
  sublist (dedup_from seen l) l.
Proof.
  revert seen. induction l as [|x l IH]; simpl; intros seen; [constructor|].
  destruct (decide (hash x ∈ seen)); [apply sublist_cons|apply sublist_skip];
    apply IH.
Qed.





(** ** C1: deduplication keeps the first occurrence *)





(** ** C2: a page task that raises *)


Lemma collect_kept (task : str -> gathered) (links : list str) :
  any_base task links = false ->
  collect links (map task links) = Ok (omap (kept task) links).
Proof.
  unfold any_base. induction links as [|link links IH]; [reflexivity|].
  cbn [map collect omap list_omap existsb]. unfold kept at 1.
  destruct (task link) as [p|e|name]; cbn [orb]; intros H.
  - rewrite (IH H). reflexivity.
  - exact (IH H).
  - discriminate.
Qed.

Lemma collect_raises (task : str -> gathered) (links : list str) :
  any_base task links = true ->
  exists e, collect links (map task links) = Raise e.
Proof.
  unfold any_base. induction links as [|link links IH]; [discriminate|].
  cbn [map collect existsb].
  destruct (task link) as [p|e|name]; cbn [orb]; intros H.
  - destruct (IH H) as [e' ->]. eauto.
  - exact (IH H).
  - eauto.
Qed.

Lemma search_with_kept (E : Env) (task : str -> gathered) (query : str)
    (num_results : Z) :
  search_with E task query num_results
  = match get_links E query num_results with
    | Ok links =>
        if any_base task (List.filter truthy links) then []
        else omap (kept task) (List.filter truthy links)
    | Raise _ => []
    end.
Proof.
  unfold search_with. destruct (get_links E query num_results) as [links|e];
    [|reflexivity].
  destruct links as [|l links]; [reflexivity|]. cbn [negb]. cbv zeta.
  destruct (any_base task (List.filter truthy (l :: links))) eqn:Hb.
  - destruct (collect_raises _ _ Hb) as [e ->]. reflexivity.
  - rewrite (collect_kept _ _ Hb). reflexivity.
Qed.

Lemma any_base_scrape (E : Env) (links : list str) :
  any_base (scrape_task E) links = false.
Proof.
  unfold any_base. induction links as [|link links IH]; [reflexivity|].
  cbn [existsb]. rewrite IH. unfold scrape_task, gather_of.
  destruct (_scrape_page E link); reflexivity.
Qed.

Lemma search_scraped (E : Env) (query : str) (num_results : Z) :
  search E query num_results
  = match get_links E query num_results with
    | Ok links => omap (kept (scrape_task E)) (List.filter truthy links)
    | Raise _ => []
    end.
Proof.
  unfold search. rewrite search_with_kept.
  destruct (get_links E query num_results) as [links|e]; [|reflexivity].
  rewrite any_base_scrape. reflexivity.
Qed.

(** ** C3: the snippet of a formatted document *)

(** C3 at the failing input: the internal backend returns a document with
    the snippet "VAT at 20" and no content; the formatted document that
    [search_documents] returns for it has the empty snippet. *)
Theorem C3_snippet_lost_without_content :
  snippet Demo.doc3 = Some (lit "VAT at 20")
  /\ content Demo.doc3 = None
  /\ format_snippet Demo.doc3 = []
  /\ exists f,
       In f (documents_of
               (fst (search_documents Demo.env (spec_nmr Demo.env)
                       (lit "vat") (lit "internal") 5)))
       /\ f_url f = url Demo.doc3 /\ f_snippet f = [].
Proof.
  split; [reflexivity|]. split; [reflexivity|]. split; [reflexivity|].
  exists (format_doc Demo.env (spec_score Demo.env Demo.doc3)).
  split; [|split; reflexivity].
  vm_compute. left. reflexivity.
Qed.

(** ** The returned mapping *)

Lemma search_documents_blank (E : Env) (nmr : NormalizeMergeRerank)
    (query source_ : str) (limit : Z) :
  blank query = true ->
  search_documents E nmr query source_ limit
  = (ventry "documents" (VDocs [])
       (ventry "total_found" (VInt 0)
          (ventry "query" (VStr query)
             (ventry "source" (VStr source_)
                (ventry "internal_docs" (VDocs [])
                   (ventry "yandex_docs" (VDocs [])
                      (ventry "merged_docs" (VDocs []) ∅)))))),
     []).
Proof. intros H. unfold search_documents. rewrite H. reflexivity. Qed.

Lemma search_documents_nonblank (E : Env) (nmr : NormalizeMergeRerank)
    (query source_ : str) (limit : Z) :
  blank query = false ->
  search_documents E nmr query source_ limit
  = (ventry "documents"
       (VDocs (map (format_doc E) (ranked E nmr query source_ limit)))
       (ventry "total_found"
          (VInt (Z.of_nat (length (ranked E nmr query source_ limit))))
          (ventry "query" (VStr query)
             (ventry "source" (VStr (coerce_source source_)) ∅))),
     snd (safe_yandex_search E query (coerce_source source_) (clamp_limit limit))
     ++ snd (safe_internal_search E query (coerce_source source_)
               (clamp_limit limit))).
Proof.
  intros H. unfold search_documents, ranked, merged. rewrite H.
  destruct (safe_yandex_search E query (coerce_source source_)
              (clamp_limit limit)) as [yr yc].
  destruct (safe_internal_search E query (coerce_source source_)
              (clamp_limit limit)) as [ir ic].
  reflexivity.
Qed.

Lemma documents_of_search (E : Env) (nmr : NormalizeMergeRerank)
    (query source_ : str) (limit : Z) :
  documents_of (fst (search_documents E nmr query source_ limit))
  = if blank query then []
    else map (format_doc E) (ranked E nmr query source_ limit).
Proof.
  destruct (blank query) eqn:Hb.
  - rewrite search_documents_blank by exact Hb. reflexivity.
  - rewrite search_documents_nonblank by exact Hb. reflexivity.
Qed.

Lemma dom_nonblank (E : Env) (nmr : NormalizeMergeRerank)
    (query source_ : str) (limit : Z) :
  blank query = false ->
  dom (fst (search_documents E nmr query source_ limit)) = RESULT_KEYS.
Proof.
  intros Hb. rewrite search_documents_nonblank by exact Hb.
  cbn [fst]. unfold ventry, RESULT_KEYS.
  rewrite !dom_insert_L, dom_empty_L. cbn [list_to_set foldr]. reflexivity.
Qed.

Lemma dom_blank (E : Env) (nmr : NormalizeMergeRerank)
    (query source_ : str) (limit : Z) :
  blank query = true ->
  dom (fst (search_documents E nmr query source_ limit))
  = RESULT_KEYS ∪ BLANK_ONLY_KEYS.
Proof.
  intros Hb. rewrite search_documents_blank by exact Hb.
  cbn [fst]. unfold ventry, RESULT_KEYS, BLANK_ONLY_KEYS.
  rewrite !dom_insert_L, dom_empty_L. cbn [list_to_set foldr]. set_solver.
Qed.

(** ** C4: the blank query *)

(** C4, as stated, fails: the mapping returned for a blank query has the
    key [merged_docs], the mapping returned for a non-blank query has
    not, so the two do not have the same set of keys. *)
Lemma C4_counterexample :
  blank (lit "   ") = true /\ blank (lit "cash") = false
  /\ dom (fst (search_documents Demo.env (spec_nmr Demo.env)
                 (lit "   ") (lit "both") 5))
     <> dom (fst (search_documents Demo.env (spec_nmr Demo.env)
                    (lit "cash") (lit "both") 5)).
Proof.
  split; [vm_compute; reflexivity|]. split; [vm_compute; reflexivity|].
  rewrite dom_blank by (vm_compute; reflexivity).
  rewrite dom_nonblank by (vm_compute; reflexivity).
  intros H.
  assert (Hin : "merged_docs"%string ∈ RESULT_KEYS ∪ BLANK_ONLY_KEYS)
    by (unfold BLANK_ONLY_KEYS; cbn [list_to_set foldr]; set_solver).
  rewrite H in Hin. unfold RESULT_KEYS in Hin. cbn [list_to_set foldr] in Hin.
  set_solver.
Qed.

(** C4, amended. For every query that is empty or made of whitespace
    only, [search_documents] invokes no backend and returns a mapping
    with [documents = []], [total_found = 0], the query and the source as
    given; its keys are the four keys of the mapping returned for a
    non-blank query and, besides, [internal_docs], [yandex_docs] and
    [merged_docs], each of which holds the empty list. *)
Theorem C4_blank_query (E : Env) (nmr : NormalizeMergeRerank)
    (query source_ : str) (limit : Z) :
  forallb isspace query = true ->
  let r := search_documents E nmr query source_ limit in
  snd r = []
  /\ field (fst r) "documents" = Some (VDocs [])
  /\ field (fst r) "total_found" = Some (VInt 0)
  /\ field (fst r) "query" = Some (VStr query)
  /\ field (fst r) "source" = Some (VStr source_)
  /\ field (fst r) "internal_docs" = Some (VDocs [])
  /\ field (fst r) "yandex_docs" = Some (VDocs [])
  /\ field (fst r) "merged_docs" = Some (VDocs [])
  /\ dom (fst r) = RESULT_KEYS ∪ BLANK_ONLY_KEYS
  /\ forall query' source' limit',
       blank query' = false ->
       dom (fst (search_documents E nmr query' source' limit')) = RESULT_KEYS.
Proof.
  intros Hspace. pose proof (blank_all_space _ Hspace) as Hb.
  assert (Hr := search_documents_blank E nmr query source_ limit Hb).
  cbv zeta.
  split; [|split; [|split; [|split; [|split; [|split; [|split;
    [|split; [|split]]]]]]]];
    try (rewrite Hr; reflexivity).
  intros. apply dom_nonblank. assumption.
Qed.

Lemma C4_witness :
  let r := search_documents Demo.env (spec_nmr Demo.env)
             (lit "   ") (lit "both") 5 in
  snd r = []
  /\ field (fst r) "documents" = Some (VDocs [])
  /\ field (fst r) "total_found" = Some (VInt 0)
  /\ field (fst r) "query" = Some (VStr (lit "   "))
  /\ field (fst r) "source" = Some (VStr (lit "both"))
  /\ field (fst r) "internal_docs" = Some (VDocs [])
  /\ field (fst r) "yandex_docs" = Some (VDocs [])
  /\ field (fst r) "merged_docs" = Some (VDocs [])
  /\ dom (fst r) = RESULT_KEYS ∪ BLANK_ONLY_KEYS
  /\ forall query' source' limit',
       blank query' = false ->
       dom (fst (search_documents Demo.env (spec_nmr Demo.env)
                   query' source' limit')) = RESULT_KEYS.
Proof.
  refine (C4_blank_query Demo.env (spec_nmr Demo.env)
            (lit "   ") (lit "both") 5 _).
  vm_compute. reflexivity.
Defined.

(** ** The documents of the external adapter *)

Lemma mapM_In {A B : Type} (f : A -> result B) (l : list A) (ys : list B)
    (y : B) :
  mapM f l = Ok ys -> In y ys -> exists x, In x l /\ f x = Ok y.
Proof.
  revert ys. induction l as [|a l IH]; simpl; intros ys H Hy.
  - injection H as <-. contradiction.
  - destruct (f a) as [b|e] eqn:Hfa; simpl in H; [|discriminate].
    destruct (mapM f l) as [bs|e] eqn:Hl; simpl in H; [|discriminate].
    injection H as <-. destruct Hy as [<-|Hy].
    + exists a. auto.
    + destruct (IH bs eq_refl Hy) as (x & Hx & Hfx). exists x. auto.
Qed.

Lemma item_keys (link : str) (page_data : dict) :
  dom (item link page_data) = ITEM_KEYS
  /\ get (item link page_data) "snippet" = None
  /\ get (item link page_data) "score" = None.
Proof.
  unfold item, entry, get, ITEM_KEYS. split; [|split].
  - rewrite !dom_insert_L, dom_empty_L. cbn [list_to_set foldr]. reflexivity.
  - rewrite !lookup_insert_ne by discriminate. apply lookup_empty.
  - rewrite !lookup_insert_ne by discriminate. apply lookup_empty.
Qed.

Lemma search_with_items (E : Env) (task : str -> gathered) (query : str)
    (num_results : Z) (r : dict) :
  In r (search_with E task query num_results) ->
  exists link page_data, r = item link page_data.
Proof.
  rewrite search_with_kept.
  destruct (get_links E query num_results) as [links|e]; [|contradiction].
  destruct (any_base task (List.filter truthy links)); [contradiction|].
  intros H. apply list_elem_of_In, list_elem_of_omap in H as (link & _ & Hk).
  unfold kept in Hk. destruct (task link) as [p|e|name]; try discriminate.
  injection Hk as <-. eauto.
Qed.

Lemma UnifiedDoc_new_fields (E : Env) (t : str) (sn c : option str)
    (a : url_arg) (src : DocSource) (ty : DocType) (raw : Q)
    (refs : list LawRef) (h : str) (d : UnifiedDoc) :
  UnifiedDoc_new E t sn c a src ty raw refs h = Ok d ->
  title d = t /\ snippet d = sn /\ content d = c
  /\ validate_url E a = Ok (url d) /\ source d = src /\ doc_type d = ty
  /\ score_raw d = raw /\ score_rank d = 0%Q /\ law_refs d = refs
  /\ hash d = compute_hash E t a h.
Proof.
  unfold UnifiedDoc_new. destruct (length t <? 2)%nat; [discriminate|].
  destruct (validate_url E a) as [u|e]; simpl; [|discriminate].
  intros H. injection H as <-. simpl. repeat split; reflexivity.
Qed.

Lemma doc_of_item_fields (E : Env) (r : dict) (d : UnifiedDoc) :
  doc_of_item E r = Ok d ->
  hash d = hash_of E (title d) (url d)
  /\ snippet d = get r "snippet"
  /\ source d = SrcYandex
  /\ (get r "score" = None -> score_raw d = 0%Q).
Proof.
  unfold doc_of_item. unfold bind at 1.
  destruct (getitem r "title") as [t|e]; [|discriminate].
  unfold bind at 1. destruct (getitem r "url") as [link|e]; [|discriminate].
  unfold bind at 1. destruct (HttpUrl E link) as [u|]; [|discriminate].
  unfold bind at 1.
  destruct (get r "score") as [s|] eqn:Hscore.
  - destruct (float_of_str E s) as [q|e]; [|discriminate].
    intros H. apply UnifiedDoc_new_fields in H
      as (Ht & Hsn & _ & Hu & Hsrc & _ & _ & _ & _ & Hh).
    simpl in Hu. injection Hu as Hu.
    split; [|split; [|split]]; try assumption; try discriminate.
    rewrite Hh, Ht, <- Hu. reflexivity.
  - intros H. apply UnifiedDoc_new_fields in H
      as (Ht & Hsn & _ & Hu & Hsrc & _ & Hraw & _ & _ & Hh).
    simpl in Hu. injection Hu as Hu.
    split; [|split; [|split]]; try assumption.
    + rewrite Hh, Ht, <- Hu. reflexivity.
    + intros _. exact Hraw.
Qed.

Lemma run_with_docs (E : Env) (task : str -> gathered) (query : str)
    (size : Z) (res : SearchResults) (d : UnifiedDoc) :
  run_with E task query size = Ok res -> In d (docs res) ->
  exists link page_data,
    In (item link page_data) (search_with E task query size)
    /\ doc_of_item E (item link page_data) = Ok d.
Proof.
  unfold run_with.
  destruct (mapM (doc_of_item E) (search_with E task query size))
    as [ds|e] eqn:Hm; simpl; [|discriminate].
  intros H Hd. injection H as <-. simpl in Hd.
  destruct (mapM_In _ _ _ _ Hm Hd) as (r & Hr & Hdoc).
  destruct (search_with_items _ _ _ _ _ Hr) as (link & p & ->). eauto.
Qed.

(** ** C5: the stored hash *)




(** ** C10: what the external adapter never supplies *)

(** C10. Every document of the results of [YandexSearch.run] has no
    snippet and the raw score 0: the items [search] returns have the keys
    [title], [url] and [content] only, so [run] reads neither a snippet
    nor a score from them. *)
Theorem C10_external_docs_without_snippet_and_score (E : Env) (query : str)
    (size : Z) (res : SearchResults) (d : UnifiedDoc) :
  run E query size = Ok res -> In d (docs res) ->
  snippet d = None /\ score_raw d = 0%Q
  /\ forall r, In r (search E query size) -> dom r = ITEM_KEYS.
Proof.
  intros Hrun Hd. unfold run in Hrun.
  destruct (run_with_docs _ _ _ _ _ _ Hrun Hd) as (link & p & _ & Hdoc).
  apply doc_of_item_fields in Hdoc as (_ & Hsn & _ & Hraw).
  destruct (item_keys link p) as (_ & Hns & Hnsc).
  split; [congruence|]. split; [auto|].
  intros r Hr. unfold search in Hr.
  destruct (search_with_items _ _ _ _ _ Hr) as (link' & p' & ->).
  apply item_keys.
Qed.

Lemma C10_witness :
  snippet Demo.law_doc = None /\ score_raw Demo.law_doc = 0%Q
  /\ forall r, In r (search Demo.env (lit "cash") 5) -> dom r = ITEM_KEYS.
Proof.
  refine (C10_external_docs_without_snippet_and_score Demo.env (lit "cash") 5
            Demo.yandex_results Demo.law_doc _ _).
  - vm_compute. reflexivity.
  - vm_compute. left. reflexivity.
Defined.

(** ** C6: the clamp of the limit *)

Lemma ranked_firstn (E : Env) (nmr : NormalizeMergeRerank)
    (query source_ : str) (limit : Z) :
  ranked E nmr query source_ limit
  = firstn (Z.to_nat (clamp_limit limit))
      (sorted score_rank true (scored nmr (merged E query source_ limit))).
Proof.
  unfold ranked, rank. apply slice_to_nonneg.
  pose proof (clamp_limit_range limit). lia.
Qed.

Lemma calls_clamped (E : Env) (nmr : NormalizeMergeRerank)
    (query source_ : str) (limit : Z) (c : call) :
  In c (snd (search_documents E nmr query source_ limit)) ->
  c = CallYandex query (clamp_limit limit)
  \/ c = CallInternal query (clamp_limit limit).
Proof.
  destruct (blank query) eqn:Hb.
  - rewrite search_documents_blank by exact Hb. contradiction.
  - rewrite search_documents_nonblank by exact Hb. cbn [snd].
    unfold safe_yandex_search, safe_internal_search. intros H.
    apply in_app_or in H as [H|H].
    + destruct (str_in (coerce_source source_) [lit "yandex"; lit "both"]);
        [|contradiction].
      destruct H as [<-|[]]. left. reflexivity.
    + destruct (str_in (coerce_source source_) [lit "internal"; lit "both"]);
        [|contradiction].
      destruct H as [<-|[]]. right. reflexivity.
Qed.

(** C6. For every integer [limit], the effective limit is [limit] clamped
    into [1, 10] (0 gives 1 and 50 gives 10), the backends are invoked
    with the clamped limit, and the documents [search_documents] returns
    are at most the clamped limit in number. *)
Theorem C6_limit_is_clamped (E : Env) (nmr : NormalizeMergeRerank)
    (query source_ : str) (limit : Z) :
  clamp_limit limit = Z.max 1 (Z.min 10 limit)
  /\ 1 <= clamp_limit limit <= 10
  /\ clamp_limit 0 = 1 /\ clamp_limit 50 = 10
  /\ Z.of_nat
       (length (documents_of (fst (search_documents E nmr query source_ limit))))
     <= clamp_limit limit
  /\ Forall (fun c => c = CallYandex query (clamp_limit limit)
                      \/ c = CallInternal query (clamp_limit limit))
       (snd (search_documents E nmr query source_ limit)).
Proof.
  pose proof (clamp_limit_range limit) as Hrange.
  split; [apply clamp_limit_max_min|]. split; [exact Hrange|].
  split; [reflexivity|]. split; [reflexivity|]. split.
  - rewrite documents_of_search. destruct (blank query); [simpl; lia|].
    rewrite length_map, ranked_firstn.
    pose proof (firstn_le_length (Z.to_nat (clamp_limit limit))
                  (sorted score_rank true
                     (scored nmr (merged E query source_ limit)))).
    lia.
  - apply List.Forall_forall. intros c Hc. eapply calls_clamped. exact Hc.
Qed.

(** ** C7: the ranking *)



(** ** C8: validation of a document *)

(** C8, as stated, fails: with a well-formed URL, the empty title makes
    the construction raise [ValidationError], and a title of two spaces,
    which is empty after trimming, is stored as it is, with no
    placeholder in its place. *)
Lemma C8_counterexample :
  HttpUrl Demo.env (lit "http://kb.example/1")
  = Some (lit "http://kb.example/1")
  /\ UnifiedDoc_new Demo.env [] None None (UrlStr (lit "http://kb.example/1"))
       SrcYandex Article 0%Q [] [] = Raise ValidationError
  /\ strip (lit "  ") = []
  /\ exists d,
       UnifiedDoc_new Demo.env (lit "  ") None None
         (UrlStr (lit "http://kb.example/1")) SrcYandex Article 0%Q [] []
       = Ok d
       /\ title d = lit "  ".
Proof.
  split; [vm_compute; reflexivity|]. split; [vm_compute; reflexivity|].
  split; [vm_compute; reflexivity|].
  eexists. split; [vm_compute; reflexivity|]. reflexivity.
Qed.

(** C8, amended. Constructing a [UnifiedDoc] raises [ValidationError]
    exactly when the title has fewer than two characters or the URL does
    not validate, and raises nothing else; a construction that succeeds
    stores the title it was given, so the constructor substitutes no
    placeholder. The placeholder is substituted before, by
    [_extract_title_from_html], which returns it for a page that has no
    non-blank [<title>] text, no [og:title] and no [twitter:title]. *)
Theorem C8_validation (E : Env) (t : str) (sn c : option str) (a : url_arg)
    (src : DocSource) (ty : DocType) (raw : Q) (refs : list LawRef)
    (h : str) :
  (UnifiedDoc_new E t sn c a src ty raw refs h = Raise ValidationError
   <-> (length t < 2)%nat \/ exists s, a = UrlStr s /\ HttpUrl E s = None)
  /\ (forall e, UnifiedDoc_new E t sn c a src ty raw refs h = Raise e ->
        e = ValidationError)
  /\ (forall d, UnifiedDoc_new E t sn c a src ty raw refs h = Ok d ->
        title d = t)
  /\ (forall html,
        (forall soup, BeautifulSoup E html = Ok soup ->
           truthy (strip (or_else (title_string soup) [])) = false
           /\ truthy_opt (og_title soup) = false
           /\ truthy_opt (twitter_title soup) = false) ->
        _extract_title_from_html E html = NO_TITLE).
Proof.
  split; [|split; [|split]].
  - unfold UnifiedDoc_new.
    destruct (length t <? 2)%nat eqn:Hlen.
    + apply Nat.ltb_lt in Hlen. split; [auto|reflexivity].
    + apply Nat.ltb_ge in Hlen. destruct a as [s|u]; simpl.
      * destruct (HttpUrl E s) as [u|] eqn:Hs; simpl.
        -- split; [discriminate|]. intros [Hl|(s' & Heq & Hnone)]; [lia|].
           injection Heq as <-. congruence.
        -- split; [eauto|reflexivity].
      * split; [discriminate|]. intros [Hl|(s' & Heq & _)]; [lia|discriminate].
  - intros e. unfold UnifiedDoc_new.
    destruct (length t <? 2)%nat; [congruence|].
    destruct a as [s|u]; simpl; [|discriminate].
    destruct (HttpUrl E s); simpl; [discriminate|congruence].
  - intros d H. apply UnifiedDoc_new_fields in H. tauto.
  - intros html H. unfold _extract_title_from_html.
    destruct (BeautifulSoup E html) as [soup|e]; [|reflexivity].
    destruct (H soup eq_refl) as (Ht & Hog & Htw).
    unfold title_from_meta. rewrite Hog, Htw.
    destruct (truthy_opt (title_string soup)); [|reflexivity].
    cbv zeta. rewrite Ht. reflexivity.
Qed.

(** ** C9: the failures of a page fetch *)

(** C9, as stated, fails: for a page answered with the status 404 the
    fetch does not return the title "Error" and the content
    "HTTP status: 404"; the title it returns is "Ошибка". *)
Lemma C9_counterexample :
  http_get Demo.env (lit "http://missing.example/x") = Ok (404, [])
  /\ _scrape_page Demo.env (lit "http://missing.example/x")
     <> Ok (page (lit "Error") (lit "HTTP status: 404"))
  /\ bind (_scrape_page Demo.env (lit "http://missing.example/x"))
       (fun p => getitem p "title")
     = Ok (lit "Ошибка").
Proof.
  split; [vm_compute; reflexivity|]. split; [|vm_compute; reflexivity].
  intros H.
  apply (f_equal (fun r => bind r (fun p => getitem p "title"))) in H.
  vm_compute in H. discriminate.
Qed.

(** C9, amended. For every URL, a response whose status is not 200 makes
    [_scrape_page] return the page of title "Ошибка" and content
    "HTTP статус: <code>", a timeout makes it return the page of title
    "Ошибка" and content "Тайм-аут при загрузке <url>", and whatever the
    outcome of the request it returns a page and raises nothing. *)
Theorem C9_fetch_failures (E : Env) (url_ : str) :
  (forall status html,
     http_get E url_ = Ok (status, html) -> status <> 200 ->
     _scrape_page E url_
     = Ok (page (lit "Ошибка") (lit "HTTP статус: " ++ str_of_int status)))
  /\ (http_get E url_ = Raise TimeoutError ->
      _scrape_page E url_
      = Ok (page (lit "Ошибка") (lit "Тайм-аут при загрузке " ++ url_)))
  /\ exists p, _scrape_page E url_ = Ok p.
Proof.
  unfold _scrape_page. split; [|split].
  - intros status html -> Hne.
    apply Z.eqb_neq in Hne. rewrite Hne. reflexivity.
  - intros ->. reflexivity.
  - destruct (http_get E url_) as [[status html]|e].
    + destruct (negb (status =? 200)); eauto.
    + destruct e; eauto.
Qed.

Lemma C9_witness :
  _scrape_page Demo.env (lit "http://missing.example/x")
  = Ok (page (lit "Ошибка") (lit "HTTP статус: " ++ str_of_int 404))
  /\ _scrape_page Demo.env (lit "http://slow.example/page")
     = Ok (page (lit "Ошибка")
             (lit "Тайм-аут при загрузке " ++ lit "http://slow.example/page")).
Proof.
  split.
  - refine (proj1 (C9_fetch_failures Demo.env (lit "http://missing.example/x"))
              404 [] _ _).
    + vm_compute. reflexivity.
    + discriminate.
  - refine (proj1 (proj2 (C9_fetch_failures Demo.env
                            (lit "http://slow.example/page"))) _).
    vm_compute. reflexivity.
Defined.

(** * Further properties of the code *)

(** ** Stripping and whitespace normalisation *)

Lemma lstrip_hd_ok (s : str) : hd_ok (lstrip s) = true.
Proof.
  induction s as [|c s IH]; simpl; [reflexivity|].
  destruct (isspace c) eqn:Hc; [exact IH|]. simpl. rewrite Hc. reflexivity.
Qed.

Lemma lstrip_fixed (s : str) : hd_ok s = true -> lstrip s = s.
Proof.
  destruct s as [|c s]; simpl; [reflexivity|].
  intros H. apply negb_true_iff in H. rewrite H. reflexivity.
Qed.

Lemma lstrip_snoc (l : str) (c : char) :
  isspace c = false -> lstrip (l ++ [c]) = lstrip l ++ [c].
Proof.
  intros Hc. induction l as [|x l IH]; simpl.
  - rewrite Hc. reflexivity.
  - destruct (isspace x); [exact IH|reflexivity].
Qed.

Lemma rstrip_cons (c : char) (s : str) :
  isspace c = false -> rstrip (c :: s) = c :: rstrip s.
Proof.
  intros Hc. unfold rstrip. simpl.
  rewrite lstrip_snoc by exact Hc. rewrite rev_app_distr. reflexivity.
Qed.

Lemma rstrip_hd_ok (s : str) : hd_ok s = true -> hd_ok (rstrip s) = true.
Proof.
  destruct s as [|c s]; [reflexivity|]. simpl. intros H.
  apply negb_true_iff in H. rewrite rstrip_cons by exact H.
  simpl. rewrite H. reflexivity.
Qed.

Lemma rstrip_last_ok (s : str) : last_ok (rstrip s) = true.
Proof.
  unfold last_ok, rstrip. rewrite rev_involutive. apply lstrip_hd_ok.
Qed.

Lemma strip_ends (s : str) :
  hd_ok (strip s) = true /\ last_ok (strip s) = true.
Proof.
  unfold strip. split.
  - apply rstrip_hd_ok, lstrip_hd_ok.
  - apply rstrip_last_ok.
Qed.

Lemma strip_fixed (s : str) :
  hd_ok s = true -> last_ok s = true -> strip s = s.
Proof.
  intros Hh Hl. unfold strip. rewrite (lstrip_fixed s Hh).
  unfold rstrip. rewrite (lstrip_fixed (rev s) Hl). apply rev_involutive.
Qed.

Lemma strip_empty_iff (s : str) :
  strip s = [] <-> forallb isspace s = true.
Proof.
  split.
  - induction s as [|c s IH]; [reflexivity|].
    unfold strip in *. simpl. destruct (isspace c) eqn:Hc; [exact IH|].
    rewrite rstrip_cons by exact Hc. discriminate.
  - intros H. unfold strip. rewrite (lstrip_all_space _ H). reflexivity.
Qed.

Lemma collapse_ws_spaced (b : bool) (s : str) :
  spaced b (collapse_ws b s) = true.
Proof.
  revert b. induction s as [|c s IH]; intros b; simpl; [reflexivity|].
  destruct (isspace c) eqn:Hc.
  - destruct b; [apply IH|]. simpl. rewrite IH. reflexivity.
  - simpl. rewrite Hc. apply IH.
Qed.

Lemma collapse_ws_fixed (b : bool) (s : str) :
  spaced b s = true -> collapse_ws b s = s.
Proof.
  revert b. induction s as [|c s IH]; intros b; simpl; [reflexivity|].
  destruct (isspace c) eqn:Hc.
  - intros H. apply andb_true_iff in H as [H Hs].
    apply andb_true_iff in H as [Hb Hc32].
    apply negb_true_iff in Hb. subst b. apply N.eqb_eq in Hc32. subst c.
    rewrite (IH true Hs). reflexivity.
  - intros H. rewrite (IH false H). reflexivity.
Qed.

Lemma collapse_ws_snoc (b : bool) (l : str) (c : char) :
  isspace c = false -> collapse_ws b (l ++ [c]) = collapse_ws b l ++ [c].
Proof.
  intros Hc. revert b. induction l as [|x l IH]; intros b; simpl.
  - rewrite Hc. reflexivity.
  - destruct (isspace x); [destruct b|]; rewrite IH; reflexivity.
Qed.

Lemma collapse_ws_ends (s : str) :
  hd_ok s = true -> last_ok s = true ->
  hd_ok (collapse_ws false s) = true /\ last_ok (collapse_ws false s) = true.
Proof.
  intros Hh Hl. split.
  - destruct s as [|c s]; [reflexivity|]. simpl in *.
    apply negb_true_iff in Hh. rewrite Hh. simpl. rewrite Hh. reflexivity.
  - unfold last_ok in *. destruct (rev s) as [|c r] eqn:Hr.
    + apply (f_equal (@rev N)) in Hr. rewrite rev_involutive in Hr.
      subst s. reflexivity.
    + apply (f_equal (@rev N)) in Hr. rewrite rev_involutive in Hr.
      subst s. simpl in *. apply negb_true_iff in Hl.
      rewrite collapse_ws_snoc by exact Hl.
      rewrite rev_app_distr. simpl. rewrite Hl. reflexivity.
Qed.

Lemma normalize_whitespace_facts (s : str) :
  hd_ok (normalize_whitespace s) = true
  /\ last_ok (normalize_whitespace s) = true
  /\ spaced false (normalize_whitespace s) = true.
Proof.
  unfold normalize_whitespace.
  destruct (strip_ends s) as [Hh Hl].
  destruct (collapse_ws_ends _ Hh Hl) as [Hh' Hl'].
  split; [exact Hh'|]. split; [exact Hl'|]. apply collapse_ws_spaced.
Qed.

(** X1. The text [normalize_whitespace] returns has no whitespace at its
    ends (stripping it changes nothing), and each whitespace character in
    it is a single space that follows a character that is no
    whitespace. *)
Theorem normalize_whitespace_normal (s : str) :
  strip (normalize_whitespace s) = normalize_whitespace s
  /\ hd_ok (normalize_whitespace s) = true
  /\ last_ok (normalize_whitespace s) = true
  /\ spaced false (normalize_whitespace s) = true.
Proof.
  destruct (normalize_whitespace_facts s) as (Hh & Hl & Hsp).
  split; [apply strip_fixed; assumption|]. auto.
Qed.

(** X2. [normalize_whitespace] is idempotent: normalising a normalised
    text changes nothing. *)
Theorem normalize_whitespace_idempotent (s : str) :
  normalize_whitespace (normalize_whitespace s) = normalize_whitespace s.
Proof.
  destruct (normalize_whitespace_facts s) as (Hh & Hl & Hsp).
  unfold normalize_whitespace at 1. rewrite (strip_fixed _ Hh Hl).
  apply collapse_ws_fixed. exact Hsp.
Qed.

(** X3. [search_documents] treats a query as blank exactly when it is
    empty or made of whitespace characters only. *)
Theorem blank_iff_all_space (query : str) :
  blank query = true <-> forallb isspace query = true.
Proof.
  split; [|apply blank_all_space].
  unfold blank. intros H. apply orb_true_iff in H as [H|H].
  - destruct query; [reflexivity|discriminate].
  - apply strip_empty_iff. destruct (strip query); [reflexivity|discriminate].
Qed.

(** ** The title of a page *)

Lemma strip_strip (s : str) : strip (strip s) = strip s.
Proof. destruct (strip_ends s). apply strip_fixed; assumption. Qed.

Lemma title_from_meta_stripped (soup : Soup) :
  strip (title_from_meta soup) = title_from_meta soup.
Proof.
  unfold title_from_meta.
  destruct (truthy_opt (og_title soup)); [apply strip_strip|].
  destruct (truthy_opt (twitter_title soup)); [apply strip_strip|].
  vm_compute. reflexivity.
Qed.

(** X4. The title [_extract_title_from_html] returns never starts or ends
    with whitespace; it is the stripped text of [<title>] whenever that
    text is not blank, whatever the meta tags hold; and when the parser
    raises it is the placeholder. *)
Theorem extract_title_stripped (E : Env) (html : str) :
  strip (_extract_title_from_html E html) = _extract_title_from_html E html
  /\ (forall soup t,
        BeautifulSoup E html = Ok soup -> title_string soup = Some t ->
        truthy (strip t) = true ->
        _extract_title_from_html E html = strip t)
  /\ (forall e, BeautifulSoup E html = Raise e ->
        _extract_title_from_html E html = NO_TITLE).
Proof.
  unfold _extract_title_from_html. split; [|split].
  - destruct (BeautifulSoup E html) as [soup|e]; [|vm_compute; reflexivity].
    destruct (truthy_opt (title_string soup));
      [|apply title_from_meta_stripped].
    cbv zeta. destruct (truthy (strip (or_else (title_string soup) []))).
    + apply strip_strip.
    + apply title_from_meta_stripped.
  - intros soup t -> Ht Hnb. rewrite Ht.
    assert (Htt : truthy t = true).
    { destruct t; [discriminate Hnb|reflexivity]. }
    simpl. rewrite Htt. destruct t as [|c t]; [discriminate|].
    simpl or_else. cbv zeta. rewrite Hnb. reflexivity.
  - intros e ->. reflexivity.
Qed.

(** ** The type of a document *)

(** X5. [_infer_doc_type] reads the [url] key only, never answers [faq]
    or [internal], answers [law] for every URL that contains
    [consultant.ru] or [garant.ru] whatever else the URL contains, and
    answers [article] for an item without URL. *)
Theorem infer_doc_type_cases (r r' : dict) :
  (get r "url" = get r' "url" -> _infer_doc_type r = _infer_doc_type r')
  /\ _infer_doc_type r <> Faq /\ _infer_doc_type r <> InternalDoc
  /\ (forall u, get r "url" = Some u ->
        contains (lit "consultant.ru") u || contains (lit "garant.ru") u = true ->
        _infer_doc_type r = Law)
  /\ (get r "url" = None -> _infer_doc_type r = Article).
Proof.
  unfold _infer_doc_type, get_or, get.
  split; [|split; [|split; [|split]]].
  - intros ->. reflexivity.
  - repeat match goal with |- context [if ?b then _ else _] => destruct b end;
      discriminate.
  - repeat match goal with |- context [if ?b then _ else _] => destruct b end;
      discriminate.
  - intros u -> H. rewrite H. reflexivity.
  - intros ->. vm_compute. reflexivity.
Qed.

(** ** The page fetch *)

Lemma starts_with_app (u b : str) : starts_with u (u ++ b) = true.
Proof.
  induction u as [|c u IH]; simpl; [reflexivity|].
  rewrite N.eqb_refl. exact IH.
Qed.

Lemma contains_starts (u s : str) :
  starts_with u s = true -> contains u s = true.
Proof. intros H. destruct s; simpl; rewrite H; reflexivity. Qed.

Lemma contains_app (u a b : str) : contains u (a ++ u ++ b) = true.
Proof.
  induction a as [|x a IH].
  - change ([] ++ u ++ b) with (u ++ b).
    apply contains_starts, starts_with_app.
  - simpl. rewrite IH. apply orb_true_r.
Qed.

Lemma contains_end (u a : str) : contains u (a ++ u) = true.
Proof. rewrite <- (app_nil_r u) at 2. apply contains_app. Qed.

Lemma page_fields (t c : str) :
  get (page t c) "title" = Some t /\ get (page t c) "content" = Some c
  /\ get_or (page t c) "title" NO_TITLE = t
  /\ get_or (page t c) "content" [] = c.
Proof.
  unfold page, entry, get, get_or.
  rewrite lookup_insert_eq, lookup_insert_ne by discriminate.
  rewrite lookup_insert_eq. auto.
Qed.

Lemma extract_page_page (E : Env) (html : str) :
  exists t c, extract_page E html = page t c.
Proof.
  unfold extract_page. cbv zeta.
  destruct (truthy_opt _); [eauto|].
  destruct (clean_soup E html); eauto.
Qed.

Lemma scrape_page_returns (E : Env) (url_ : str) :
  exists t c, _scrape_page E url_ = Ok (page t c).
Proof.
  unfold _scrape_page.
  destruct (http_get E url_) as [[status html]|e].
  - destruct (negb (status =? 200)); [eauto|].
    destruct (extract_page_page E html) as (t & c & ->). eauto.
  - destruct e; eauto.
Qed.

(** X6. When the request of a page raises, whatever the exception,
    [_scrape_page] returns a page whose title is "Ошибка" and whose
    content names the URL that was requested. *)
Theorem scrape_page_failure_names_url (E : Env) (url_ : str) (e : exn) :
  http_get E url_ = Raise e ->
  exists c,
    _scrape_page E url_ = Ok (page ERROR_TITLE c)
    /\ contains url_ c = true.
Proof.
  intros H. unfold _scrape_page. rewrite H.
  destruct e; eexists; (split; [reflexivity|]);
    first [apply contains_end | apply contains_app].
Qed.

Lemma scrape_page_failure_witness :
  exists c,
    _scrape_page Demo.env (lit "http://slow.example/page")
    = Ok (page ERROR_TITLE c)
    /\ contains (lit "http://slow.example/page") c = true.
Proof.
  refine (scrape_page_failure_names_url Demo.env
            (lit "http://slow.example/page") TimeoutError _).
  vm_compute. reflexivity.
Defined.

(** X7. For a page answered with the status 200, the content
    [_scrape_page] returns is whitespace-normalised (no whitespace at its
    ends, single spaces only), unless the fallback parsing raised, in
    which case the page has the title "Ошибка". *)
Theorem scrape_page_content_normalised (E : Env) (url_ html : str) :
  http_get E url_ = Ok (200, html) ->
  exists t c,
    _scrape_page E url_ = Ok (page t c)
    /\ ((strip c = c /\ spaced false c = true)
        \/ (t = ERROR_TITLE /\ exists e, clean_soup E html = Raise e)).
Proof.
  intros H. unfold _scrape_page. rewrite H. cbn [Z.eqb negb Pos.eqb].
  unfold extract_page. cbv zeta.
  destruct (truthy_opt _).
  - eexists. eexists. split; [reflexivity|]. left.
    destruct (normalize_whitespace_facts
                (or_else
                   match trafilatura_extract E html with
                   | Ok (Some s) => Some s
                   | Ok None => Some []
                   | Raise _ => None
                   end [])) as (Hh & Hl & Hsp).
    split; [apply strip_fixed; assumption|exact Hsp].
  - destruct (clean_soup E html) as [soup|e].
    + eexists. eexists. split; [reflexivity|]. left.
      destruct (normalize_whitespace_facts (visible_text soup))
        as (Hh & Hl & Hsp).
      split; [apply strip_fixed; assumption|exact Hsp].
    + eexists. eexists. split; [reflexivity|]. right. eauto.
Qed.

Lemma scrape_page_content_witness :
  exists t c,
    _scrape_page Demo.env (lit "http://consultant.ru/doc") = Ok (page t c)
    /\ ((strip c = c /\ spaced false c = true)
        \/ (t = ERROR_TITLE
            /\ exists e,
                 clean_soup Demo.env (lit "Cash operations  rules") = Raise e)).
Proof.
  refine (scrape_page_content_normalised Demo.env
            (lit "http://consultant.ru/doc") (lit "Cash operations  rules") _).
  vm_compute. reflexivity.
Defined.

(** ** The items of [search] and the documents of [run] *)

Lemma item_fields (link : str) (p : dict) :
  get (item link p) "title" = Some (get_or p "title" NO_TITLE)
  /\ get (item link p) "url" = Some link
  /\ get (item link p) "content" = Some (get_or p "content" []).
Proof.
  unfold item, entry, get. split; [|split].
  - apply lookup_insert_eq.
  - rewrite lookup_insert_ne by discriminate. apply lookup_insert_eq.
  - rewrite !lookup_insert_ne by discriminate. apply lookup_insert_eq.
Qed.

Lemma omap_kept_scraped (E : Env) (links : list str) :
  Forall2
    (fun link it =>
       exists t c,
         _scrape_page E link = Ok (page t c)
         /\ get it "url" = Some link
         /\ get it "title" = Some t /\ get it "content" = Some c)
    links (omap (kept (scrape_task E)) links).
Proof.
  induction links as [|link links IH]; [constructor|].
  cbn [omap list_omap]. unfold kept at 1. unfold scrape_task at 1.
  destruct (scrape_page_returns E link) as (t & c & Hp). rewrite Hp.
  cbn [gather_of].
  constructor; [|exact IH].
  exists t, c. destruct (item_fields link (page t c)) as (Ht & Hu & Hc).
  destruct (page_fields t c) as (_ & _ & Hgt & Hgc).
  rewrite Hgt in Ht. rewrite Hgc in Hc. auto.
Qed.

(** X8. [search] returns one item for each non-empty link of the
    provider, in the order of the links: the item carries the link as its
    [url] and the title and content of the page scraped for that link.
    An exception of the provider, or no link, gives the empty list. *)
Theorem search_one_item_per_link (E : Env) (query : str) (num_results : Z) :
  (forall links,
     get_links E query num_results = Ok links ->
     Forall2
       (fun link it =>
          exists t c,
            _scrape_page E link = Ok (page t c)
            /\ get it "url" = Some link
            /\ get it "title" = Some t /\ get it "content" = Some c)
       (List.filter truthy links) (search E query num_results))
  /\ (forall e, get_links E query num_results = Raise e ->
        search E query num_results = [])
  /\ (get_links E query num_results = Ok [] ->
        search E query num_results = []).
Proof.
  rewrite search_scraped. split; [|split].
  - intros links ->. apply omap_kept_scraped.
  - intros e ->. reflexivity.
  - intros ->. reflexivity.
Qed.

Lemma mapM_Forall2 {A B : Type} (f : A -> result B) (l : list A)
    (ys : list B) :
  mapM f l = Ok ys <-> Forall2 (fun x y => f x = Ok y) l ys.
Proof.
  revert ys. induction l as [|a l IH]; intros ys; simpl.
  - split.
    + intros H. injection H as <-. constructor.
    + intros H. inversion H. reflexivity.
  - split.
    + destruct (f a) as [b|e] eqn:Hfa; simpl; [|discriminate].
      destruct (mapM f l) as [bs|e] eqn:Hl; simpl; [|discriminate].
      intros H. injection H as <-. constructor; [exact Hfa|].
      apply IH. reflexivity.
    + intros H. inversion H as [|x y l' ys' Hxy Hrest]; subst.
      rewrite Hxy. simpl. apply IH in Hrest. rewrite Hrest. reflexivity.
Qed.

Lemma mapM_raise {A B : Type} (f : A -> result B) (l : list A) (e : exn) :
  mapM f l = Raise e -> exists x, In x l /\ f x = Raise e.
Proof.
  induction l as [|a l IH]; simpl; [discriminate|].
  destruct (f a) as [b|e'] eqn:Hfa; simpl.
  - destruct (mapM f l) as [bs|e''] eqn:Hl; simpl; [discriminate|].
    intros H. injection H as ->.
    destruct (IH eq_refl) as (x & Hx & Hfx). eauto.
  - intros H. injection H as ->. eauto.
Qed.

(** What [run] makes of an item of [search]. *)
Lemma doc_of_item_item (E : Env) (link : str) (p : dict) :
  doc_of_item E (item link p)
  = match HttpUrl E link with
    | Some u =>
        UnifiedDoc_new E (get_or p "title" NO_TITLE) None
          (Some (get_or p "content" [])) (UrlObj u) SrcYandex
          (_infer_doc_type (item link p)) 0%Q
          (_extract_law_refs E (item link p)) []
    | None => Raise ValidationError
    end.
Proof.
  destruct (item_fields link p) as (Ht & Hu & Hc).
  destruct (item_keys link p) as (_ & Hsn & Hsc).
  unfold doc_of_item, getitem. unfold get in *.
  rewrite Ht, Hu. cbn [bind].
  destruct (HttpUrl E link) as [u|]; [|reflexivity]. cbn [bind].
  rewrite Hsc. cbn [bind]. unfold get. rewrite Hsn, Hc. reflexivity.
Qed.

Lemma doc_of_item_ok_iff (E : Env) (link : str) (p : dict) :
  (exists d, doc_of_item E (item link p) = Ok d)
  <-> (2 <= length (get_or p "title" NO_TITLE))%nat
      /\ is_Some (HttpUrl E link).
Proof.
  rewrite doc_of_item_item. unfold UnifiedDoc_new.
  destruct (HttpUrl E link) as [u|].
  - destruct (length (get_or p "title" NO_TITLE) <? 2)%nat eqn:Hlen.
    + apply Nat.ltb_lt in Hlen. split.
      * intros [d Hd]. discriminate.
      * intros [Hl _]. lia.
    + apply Nat.ltb_ge in Hlen. simpl. split; [eauto|]. intros _. eauto.
  - split.
    + intros [d Hd]. discriminate.
    + intros [_ [u Hu]]. discriminate.
Qed.

Lemma doc_of_item_raises (E : Env) (link : str) (p : dict) (e : exn) :
  doc_of_item E (item link p) = Raise e -> e = ValidationError.
Proof.
  rewrite doc_of_item_item. unfold UnifiedDoc_new.
  destruct (HttpUrl E link) as [u|]; [|congruence].
  destruct (length (get_or p "title" NO_TITLE) <? 2)%nat; [congruence|].
  simpl. discriminate.
Qed.

(** X9. [YandexSearch.run] returns results exactly when every item of
    [search] has a title of at least two characters and a link that
    validates as an [HttpUrl]; otherwise it raises [ValidationError], so
    one such item makes the adapter lose all its documents. *)
Theorem run_succeeds_iff (E : Env) (query : str) (size : Z) :
  ((exists res, run E query size = Ok res)
   <-> Forall
         (fun it =>
            (2 <= length (get_or it "title" []))%nat
            /\ is_Some (HttpUrl E (get_or it "url" [])))
         (search E query size))
  /\ (forall e, run E query size = Raise e -> e = ValidationError).
Proof.
  unfold run, run_with, search. split.
  - split.
    + intros [res Hres].
      destruct (mapM (doc_of_item E)
                  (search_with E (scrape_task E) query size))
        as [ds|e] eqn:Hm; simpl in Hres; [|discriminate].
      apply List.Forall_forall. intros it Hit.
      apply mapM_Forall2 in Hm.
      destruct (search_with_items _ _ _ _ _ Hit) as (link & p & ->).
      assert (Hok : exists d, doc_of_item E (item link p) = Ok d).
      { clear - Hm Hit. induction Hm as [|x y l ys Hxy Hrest IH];
          [contradiction|].
        destruct Hit as [->|Hit]; eauto. }
      apply doc_of_item_ok_iff in Hok.
      destruct (item_fields link p) as (Ht & Hu & _). unfold get in *.
      unfold get_or. rewrite Ht, Hu. exact Hok.
    + intros Hall.
      destruct (mapM (doc_of_item E)
                  (search_with E (scrape_task E) query size))
        as [ds|e] eqn:Hm; simpl; [eauto|].
      exfalso. apply mapM_raise in Hm as (it & Hit & Hraise).
      rewrite List.Forall_forall in Hall. specialize (Hall it Hit).
      destruct (search_with_items _ _ _ _ _ Hit) as (link & p & ->).
      destruct (item_fields link p) as (Ht & Hu & _). unfold get in *.
      unfold get_or in Hall. rewrite Ht, Hu in Hall.
      apply doc_of_item_ok_iff in Hall as [d Hd]. congruence.
  - intros e.
    destruct (mapM (doc_of_item E)
                (search_with E (scrape_task E) query size))
      as [ds|e'] eqn:Hm; simpl; [discriminate|].
    intros H. injection H as ->.
    apply mapM_raise in Hm as (it & Hit & Hraise).
    destruct (search_with_items _ _ _ _ _ Hit) as (link & p & ->).
    eapply doc_of_item_raises. exact Hraise.
Qed.

Lemma doc_of_item_provenance (E : Env) (link : str) (p : dict)
    (d : UnifiedDoc) :
  doc_of_item E (item link p) = Ok d ->
  get (item link p) "title" = Some (title d)
  /\ get (item link p) "content" = content d
  /\ HttpUrl E link = Some (url d)
  /\ doc_type d = _infer_doc_type (item link p)
  /\ source d = SrcYandex /\ score_rank d = 0%Q
  /\ law_refs d = _extract_law_refs E (item link p).
Proof.
  rewrite doc_of_item_item.
  destruct (item_fields link p) as (Ht & _ & Hc).
  destruct (HttpUrl E link) as [u|]; [|discriminate].
  intros H. apply UnifiedDoc_new_fields in H
    as (Htd & _ & Hcd & Hu & Hsrc & Hty & _ & Hrank & Hrefs & _).
  simpl in Hu. injection Hu as Hu.
  rewrite Ht, Hc, Htd, Hcd, Hu. auto 10.
Qed.

Lemma docs_provenance (E : Env) (items : list dict) (ds : list UnifiedDoc) :
  (forall it, In it items -> exists link p, it = item link p) ->
  Forall2 (fun it d => doc_of_item E it = Ok d) items ds ->
  Forall2
    (fun it d =>
       get it "title" = Some (title d)
       /\ get it "content" = content d
       /\ (exists link,
             get it "url" = Some link /\ HttpUrl E link = Some (url d))
       /\ doc_type d = _infer_doc_type it
       /\ source d = SrcYandex /\ score_rank d = 0%Q
       /\ law_refs d = _extract_law_refs E it)
    items ds.
Proof.
  intros Hitems H. induction H as [|it d items ds Hd Hrest IH];
    [constructor|].
  constructor.
  - destruct (Hitems it (or_introl eq_refl)) as (link & p & ->).
    apply doc_of_item_provenance in Hd
      as (Ht & Hc & Hu & Hty & Hsrc & Hrank & Hrefs).
    destruct (item_fields link p) as (_ & Hurl & _).
    split; [exact Ht|]. split; [exact Hc|]. split; [eauto|]. auto.
  - apply IH. intros it' Hin. apply Hitems. right. exact Hin.
Qed.

(** X10. When [YandexSearch.run] returns, its documents are, one for one
    and in order, those of the items of [search]: each has the title and
    content of its item, the validated link as URL, the type inferred
    from the item, the source [yandex] and the rank score 0; the [count]
    of the meta data is the number of documents. *)
Theorem run_docs_follow_items (E : Env) (query : str) (size : Z)
    (res : SearchResults) :
  run E query size = Ok res ->
  Forall2
    (fun it d =>
       get it "title" = Some (title d)
       /\ get it "content" = content d
       /\ (exists link,
             get it "url" = Some link /\ HttpUrl E link = Some (url d))
       /\ doc_type d = _infer_doc_type it
       /\ source d = SrcYandex /\ score_rank d = 0%Q
       /\ law_refs d = _extract_law_refs E it)
    (search E query size) (docs res)
  /\ meta res
     = [("provider"%string, lit "yandex");
        ("count"%string, str_of_int (Z.of_nat (length (docs res))))].
Proof.
  unfold run, run_with, search.
  destruct (mapM (doc_of_item E) (search_with E (scrape_task E) query size))
    as [ds|e] eqn:Hm; simpl; [|discriminate].
  intros H. injection H as <-. simpl. split; [|reflexivity].
  apply docs_provenance.
  - intros it Hit. eapply search_with_items. exact Hit.
  - apply mapM_Forall2. exact Hm.
Qed.

Lemma run_docs_follow_items_witness :
  Forall2
    (fun it d =>
       get it "title" = Some (title d)
       /\ get it "content" = content d
       /\ (exists link,
             get it "url" = Some link
             /\ HttpUrl Demo.env link = Some (url d))
       /\ doc_type d = _infer_doc_type it
       /\ source d = SrcYandex /\ score_rank d = 0%Q
       /\ law_refs d = _extract_law_refs Demo.env it)
    (search Demo.env (lit "cash") 5) (docs Demo.yandex_results)
  /\ meta Demo.yandex_results
     = [("provider"%string, lit "yandex");
        ("count"%string,
         str_of_int (Z.of_nat (length (docs Demo.yandex_results))))].
Proof.
  refine (run_docs_follow_items Demo.env (lit "cash") 5
            Demo.yandex_results _).
  vm_compute. reflexivity.
Defined.

(** ** The entry point: failures, sources and counts *)

Lemma str_in_both_internal :
  str_in (lit "both") [lit "internal"; lit "both"] = true.
Proof. vm_compute. reflexivity. Qed.

Lemma str_in_both_yandex :
  str_in (lit "both") [lit "yandex"; lit "both"] = true.
Proof. vm_compute. reflexivity. Qed.

Lemma merged_both (E : Env) (query source_ : str) (limit : Z) :
  coerce_source source_ = lit "both" ->
  merged E query source_ limit
  = match internal_run E query (clamp_limit limit) with
    | Ok r => docs r
    | Raise _ => []
    end
    ++ match run E query (clamp_limit limit) with
       | Ok r => docs r
       | Raise _ => []
       end.
Proof.
  intros Hs. unfold merged, merge, safe_internal_search, safe_yandex_search.
  rewrite Hs, str_in_both_internal, str_in_both_yandex. cbn [fst].
  destruct (internal_run E query (clamp_limit limit));
    destruct (run E query (clamp_limit limit)); reflexivity.
Qed.

Lemma merged_internal (E : Env) (query : str) (limit : Z) :
  merged E query (lit "internal") limit
  = match internal_run E query (clamp_limit limit) with
    | Ok r => docs r
    | Raise _ => []
    end.
Proof.
  unfold merged, merge, safe_internal_search, safe_yandex_search.
  replace (coerce_source (lit "internal")) with (lit "internal")
    by (vm_compute; reflexivity).
  replace (str_in (lit "internal") [lit "internal"; lit "both"]) with true
    by (vm_compute; reflexivity).
  replace (str_in (lit "internal") [lit "yandex"; lit "both"]) with false
    by (vm_compute; reflexivity).
  cbn [fst]. rewrite app_nil_r.
  destruct (internal_run E query (clamp_limit limit)); reflexivity.
Qed.

Lemma merged_yandex (E : Env) (query : str) (limit : Z) :
  merged E query (lit "yandex") limit
  = match run E query (clamp_limit limit) with
    | Ok r => docs r
    | Raise _ => []
    end.
Proof.
  unfold merged, merge, safe_internal_search, safe_yandex_search.
  replace (coerce_source (lit "yandex")) with (lit "yandex")
    by (vm_compute; reflexivity).
  replace (str_in (lit "yandex") [lit "internal"; lit "both"]) with false
    by (vm_compute; reflexivity).
  replace (str_in (lit "yandex") [lit "yandex"; lit "both"]) with true
    by (vm_compute; reflexivity).
  cbn [fst app].
  destruct (run E query (clamp_limit limit)); reflexivity.
Qed.

Lemma documents_same_merged (E : Env) (nmr : NormalizeMergeRerank)
    (query s1 s2 : str) (limit : Z) :
  merged E query s1 limit = merged E query s2 limit ->
  documents_of (fst (search_documents E nmr query s1 limit))
  = documents_of (fst (search_documents E nmr query s2 limit)).
Proof.
  intros H. rewrite !documents_of_search. unfold ranked. rewrite H.
  reflexivity.
Qed.

(** X11. With both backends selected, a backend whose invocation raises
    is as good as not selected: when the external backend raises, the
    documents returned are those returned for the source [internal], and
    when the internal backend raises, those returned for the source
    [yandex]; when both raise, no document is merged. *)
Theorem failed_backend_as_unselected (E : Env) (nmr : NormalizeMergeRerank)
    (query source_ : str) (limit : Z) :
  coerce_source source_ = lit "both" ->
  (forall e, run E query (clamp_limit limit) = Raise e ->
     documents_of (fst (search_documents E nmr query source_ limit))
     = documents_of (fst (search_documents E nmr query (lit "internal") limit)))
  /\ (forall e, internal_run E query (clamp_limit limit) = Raise e ->
        documents_of (fst (search_documents E nmr query source_ limit))
        = documents_of
            (fst (search_documents E nmr query (lit "yandex") limit)))
  /\ (forall e e', run E query (clamp_limit limit) = Raise e ->
        internal_run E query (clamp_limit limit) = Raise e' ->
        merged E query source_ limit = []).
Proof.
  intros Hs. split; [|split].
  - intros e He. apply documents_same_merged.
    rewrite (merged_both _ _ _ _ Hs), merged_internal, He.
    apply app_nil_r.
  - intros e He. apply documents_same_merged.
    rewrite (merged_both _ _ _ _ Hs), merged_yandex, He. reflexivity.
  - intros e e' He He'. rewrite (merged_both _ _ _ _ Hs), He, He'.
    reflexivity.
Qed.

Lemma failed_backend_witness :
  (forall e, run Cases.bad_link (lit "cash") (clamp_limit 5) = Raise e ->
     documents_of
       (fst (search_documents Cases.bad_link (spec_nmr Cases.bad_link)
               (lit "cash") (lit "anything") 5))
     = documents_of
         (fst (search_documents Cases.bad_link (spec_nmr Cases.bad_link)
                 (lit "cash") (lit "internal") 5)))
  /\ run Cases.bad_link (lit "cash") (clamp_limit 5) = Raise ValidationError.
Proof.
  split.
  - refine (proj1 (failed_backend_as_unselected Cases.bad_link
                     (spec_nmr Cases.bad_link) (lit "cash") (lit "anything")
                     5 _)).
    vm_compute. reflexivity.
  - vm_compute. reflexivity.
Defined.

Lemma coerce_source_other (source_ : str) :
  str_eqb source_ (lit "internal") = false ->
  str_eqb source_ (lit "yandex") = false ->
  coerce_source source_ = lit "both".
Proof.
  intros Hi Hy. unfold coerce_source, str_in, SOURCES. cbn [existsb].
  rewrite Hi, Hy. cbn [orb].
  destruct (str_eqb source_ (lit "both")) eqn:Hb; [|reflexivity].
  apply str_eqb_eq in Hb. exact Hb.
Qed.

(** X12. For a query that is not blank, [search_documents] invokes the
    internal backend alone for the source [internal], the external one
    alone for the source [yandex], and both, each once, for every other
    value of the source, [both] or unrecognised; each invocation gets the
    query and the clamped limit. *)
Theorem backends_invoked_by_source (E : Env) (nmr : NormalizeMergeRerank)
    (query source_ : str) (limit : Z) :
  blank query = false ->
  snd (search_documents E nmr query source_ limit)
  = if str_eqb source_ (lit "internal")
    then [CallInternal query (clamp_limit limit)]
    else if str_eqb source_ (lit "yandex")
    then [CallYandex query (clamp_limit limit)]
    else [CallYandex query (clamp_limit limit);
          CallInternal query (clamp_limit limit)].
Proof.
  intros Hb. rewrite search_documents_nonblank by exact Hb. cbn [snd].
  unfold safe_yandex_search, safe_internal_search.
  destruct (str_eqb source_ (lit "internal")) eqn:Hi.
  - apply str_eqb_eq in Hi. subst source_.
    replace (coerce_source (lit "internal")) with (lit "internal")
      by (vm_compute; reflexivity).
    replace (str_in (lit "internal") [lit "internal"; lit "both"]) with true
      by (vm_compute; reflexivity).
    replace (str_in (lit "internal") [lit "yandex"; lit "both"]) with false
      by (vm_compute; reflexivity).
    reflexivity.
  - destruct (str_eqb source_ (lit "yandex")) eqn:Hy.
    + apply str_eqb_eq in Hy. subst source_.
      replace (coerce_source (lit "yandex")) with (lit "yandex")
        by (vm_compute; reflexivity).
      replace (str_in (lit "yandex") [lit "internal"; lit "both"]) with false
        by (vm_compute; reflexivity).
      replace (str_in (lit "yandex") [lit "yandex"; lit "both"]) with true
        by (vm_compute; reflexivity).
      reflexivity.
    + rewrite (coerce_source_other _ Hi Hy).
      rewrite str_in_both_internal, str_in_both_yandex. reflexivity.
Qed.

Lemma backends_invoked_witness :
  snd (search_documents Demo.env (spec_nmr Demo.env) (lit "cash")
         (lit "invalid_value") 50)
  = if str_eqb (lit "invalid_value") (lit "internal")
    then [CallInternal (lit "cash") (clamp_limit 50)]
    else if str_eqb (lit "invalid_value") (lit "yandex")
    then [CallYandex (lit "cash") (clamp_limit 50)]
    else [CallYandex (lit "cash") (clamp_limit 50);
          CallInternal (lit "cash") (clamp_limit 50)].
Proof.
  refine (backends_invoked_by_source Demo.env (spec_nmr Demo.env)
            (lit "cash") (lit "invalid_value") 50 _).
  vm_compute. reflexivity.
Defined.

(** X13. In every mapping [search_documents] returns, [total_found] is
    the number of documents under [documents], and the query is the one
    given. *)
Theorem total_found_counts_documents (E : Env) (nmr : NormalizeMergeRerank)
    (query source_ : str) (limit : Z) :
  let r := fst (search_documents E nmr query source_ limit) in
  field r "total_found" = Some (VInt (Z.of_nat (length (documents_of r))))
  /\ field r "query" = Some (VStr query).
Proof.
  cbv zeta. destruct (blank query) eqn:Hb.
  - rewrite search_documents_blank by exact Hb. split; reflexivity.
  - rewrite search_documents_nonblank by exact Hb. cbn [fst].
    unfold field, documents_of, ventry. split.
    + rewrite lookup_insert_eq.
      rewrite lookup_insert_ne by discriminate.
      rewrite lookup_insert_eq. rewrite length_map. reflexivity.
    + rewrite !lookup_insert_ne by discriminate. apply lookup_insert_eq.
Qed.

(** X14. For a query that is not blank the [source] of the returned
    mapping is one of [internal], [yandex] and [both]: the source given
    when it is one of them, [both] otherwise. For a blank query the
    source is returned as given, recognised or not. *)
Theorem source_reported (E : Env) (nmr : NormalizeMergeRerank)
    (query source_ : str) (limit : Z) :
  let r := fst (search_documents E nmr query source_ limit) in
  (blank query = false ->
   field r "source" = Some (VStr (coerce_source source_))
   /\ str_in (coerce_source source_) SOURCES = true
   /\ (str_in source_ SOURCES = true -> coerce_source source_ = source_)
   /\ (str_in source_ SOURCES = false -> coerce_source source_ = lit "both"))
  /\ (blank query = true -> field r "source" = Some (VStr source_)).
Proof.
  cbv zeta. split.
  - intros Hb. rewrite search_documents_nonblank by exact Hb. cbn [fst].
    split.
    + unfold field, ventry. rewrite !lookup_insert_ne by discriminate.
      apply lookup_insert_eq.
    + unfold coerce_source. destruct (str_in source_ SOURCES) eqn:Hs.
      * split; [exact Hs|]. split; [reflexivity|discriminate].
      * split; [vm_compute; reflexivity|]. split; [discriminate|reflexivity].
  - intros Hb. rewrite search_documents_blank by exact Hb. reflexivity.
Qed.

(** X15. The snippet of a returned document is empty exactly when the
    document has no content; when it has content, the snippet is the
    backend's snippet if there is one, and else the first 200 characters
    of the content. *)
Theorem format_snippet_cases (doc : UnifiedDoc) :
  (format_snippet doc = [] <-> truthy_opt (content doc) = false)
  /\ (truthy_opt (content doc) = true -> truthy_opt (snippet doc) = true ->
      snippet doc = Some (format_snippet doc))
  /\ (truthy_opt (content doc) = true -> truthy_opt (snippet doc) = false ->
      exists c, content doc = Some c
                /\ format_snippet doc = firstn 200 c
                /\ (length (format_snippet doc) <= 200)%nat).
Proof.
  unfold format_snippet.
  destruct (content doc) as [[|c0 c]|]; simpl.
  - split; [tauto|]. split; discriminate.
  - split; [|split].
    + split; [|discriminate].
      destruct (snippet doc) as [[|s0 s]|]; simpl; discriminate.
    + intros _. destruct (snippet doc) as [[|s0 s]|]; simpl;
        try discriminate. reflexivity.
    + intros _ Hs. exists (c0 :: c). split; [reflexivity|].
      assert (Hsn : or_else (snippet doc) (slice_to 200 (c0 :: c))
                    = firstn 200 (c0 :: c)).
      { destruct (snippet doc) as [[|s0 s]|]; try discriminate Hs;
          reflexivity. }
      rewrite Hsn. split; [reflexivity|]. apply firstn_le_length.
  - split; [tauto|]. split; discriminate.
Qed.

(** ** The proxy, the file names and the text for the model *)

(** X16. [_get_proxy_config] never returns an empty string; it returns
    the value of [HTTP_PROXY] when that is set and not empty, else the
    value of [HTTPS_PROXY] when that is set and not empty, and [None]
    exactly when neither is. *)
Theorem get_proxy_config_cases (environ : gmap string str) :
  (forall p, _get_proxy_config environ = Some p -> truthy p = true)
  /\ (forall p, get environ "HTTP_PROXY" = Some p -> truthy p = true ->
        _get_proxy_config environ = Some p)
  /\ (truthy_opt (get environ "HTTP_PROXY") = false ->
      forall p, get environ "HTTPS_PROXY" = Some p -> truthy p = true ->
      _get_proxy_config environ = Some p)
  /\ (_get_proxy_config environ = None
      <-> truthy_opt (get environ "HTTP_PROXY") = false
          /\ truthy_opt (get environ "HTTPS_PROXY") = false).
Proof.
  unfold _get_proxy_config, first_proxy, get, truthy_opt.
  destruct (environ !! "HTTP_PROXY"%string) as [p1|];
    destruct (environ !! "HTTPS_PROXY"%string) as [p2|];
    try destruct (truthy p1) eqn:H1; try destruct (truthy p2) eqn:H2;
    repeat split; intros; try congruence; try tauto;
    repeat match goal with
           | H : _ /\ _ |- _ => destruct H
           | H : Some _ = Some _ |- _ => injection H as ->
           end; congruence.
Qed.

Lemma filter_all {A : Type} (f : A -> bool) (l : list A) :
  forallb f l = true -> List.filter f l = l.
Proof.
  induction l as [|x l IH]; simpl; [reflexivity|].
  intros H. apply andb_true_iff in H as [Hx Hl]. rewrite Hx, IH by exact Hl.
  reflexivity.
Qed.

(** X17. The name [generate_unique_name] builds is the time stamp, an
    underscore and at most 50 characters made from the query, none of
    which is a space or one of the characters the function removes, path
    separators among them; a query of at most 50 characters that has no
    such character is kept as it is. *)
Theorem generate_unique_name_safe (timestamp query : str) :
  exists tail,
    generate_unique_name timestamp query = timestamp ++ lit "_" ++ tail
    /\ (length tail <= 50)%nat
    /\ Forall (fun c => forbidden c = false /\ c <> 32%N) tail
    /\ (forallb (fun c => negb (forbidden c) && negb (c =? 32)%N) query = true ->
        (length query <= 50)%nat -> tail = query).
Proof.
  exists (replace_space (safe_query query)).
  split; [reflexivity|]. unfold replace_space, safe_query.
  rewrite slice_to_nonneg by lia. change (Z.to_nat 50) with 50%nat.
  split; [|split].
  - rewrite length_map. apply firstn_le_length.
  - apply List.Forall_forall. intros c Hc.
    apply in_map_iff in Hc as (c0 & Hc & Hin).
    apply In_firstn_In, filter_In in Hin as [_ Hf].
    apply negb_true_iff in Hf.
    destruct (c0 =? 32)%N eqn:H32; subst c.
    + split; [vm_compute; reflexivity|discriminate].
    + split; [exact Hf|]. apply N.eqb_neq. exact H32.
  - intros Hall Hlen.
    assert (Hf : forallb (fun c => negb (forbidden c)) query = true).
    { apply forallb_forall. intros c Hc.
      rewrite forallb_forall in Hall. specialize (Hall c Hc).
      apply andb_true_iff in Hall. tauto. }
    rewrite (filter_all _ _ Hf). rewrite firstn_all2 by exact Hlen.
    rewrite <- (map_id query) at 2. apply map_ext_in. intros c Hc.
    rewrite forallb_forall in Hall. specialize (Hall c Hc).
    apply andb_true_iff in Hall as [_ H32]. apply negb_true_iff in H32.
    rewrite H32. reflexivity.
Qed.

Lemma format_from_imap (i : Z) (results : list dict) :
  format_from i results
  = concat (imap (fun k it => format_block (i + Z.of_nat k) it) results).
Proof.
  revert i. induction results as [|it rest IH]; intros i; [reflexivity|].
  cbn [format_from imap concat]. rewrite Z.add_0_r, IH. f_equal. f_equal.
  apply imap_ext. intros k x _. unfold compose.
  replace (i + 1 + Z.of_nat k) with (i + Z.of_nat (S k)) by lia.
  reflexivity.
Qed.

Lemma format_block_nonempty (i : Z) (it : dict) : format_block i it <> [].
Proof.
  unfold format_block. cbv zeta. intros H.
  apply app_eq_nil in H as [H _]. apply app_eq_nil in H as [H _].
  vm_compute in H. discriminate.
Qed.

(** X18. [_format_results] never returns the empty string: for no result
    it returns the fixed sentence, and for results it returns their
    blocks one after the other in the order of the results, numbered
    from 1. *)
Theorem format_results_blocks (results : list dict) :
  _format_results results <> []
  /\ _format_results [] = NO_RESULTS
  /\ (results <> [] ->
      _format_results results
      = concat (imap (fun k it => format_block (1 + Z.of_nat k) it) results)).
Proof.
  split; [|split].
  - destruct results as [|it rest]; [vm_compute; discriminate|].
    unfold _format_results. cbn [format_from]. intros H.
    apply app_eq_nil in H as [H _]. exact (format_block_nonempty _ _ H).
  - reflexivity.
  - intros Hne. destruct results as [|it rest]; [contradiction|].
    unfold _format_results. apply format_from_imap.
Qed.

(** X19. In [extract_answers] the fragment stored for a document is the
    content that was analysed: the first [CHUNK_SIZE] = 8000 characters
    of the document content, the whole content when it is not longer;
    the later slice to [MAX_FRAGMENT_SIZE] = 10000 characters removes
    nothing. *)
Theorem stored_fragment_is_analysed (content_ : str) :
  stored_fragment content_ = analysed_content content_
  /\ analysed_content content_ = firstn (Z.to_nat CHUNK_SIZE) content_
  /\ Z.of_nat (length (stored_fragment content_)) <= CHUNK_SIZE
  /\ (Z.of_nat (length content_) <= CHUNK_SIZE ->
      stored_fragment content_ = content_).
Proof.
  assert (Hc : 0 <= CHUNK_SIZE < MAX_FRAGMENT_SIZE)
    by (unfold CHUNK_SIZE, MAX_FRAGMENT_SIZE; lia).
  assert (Ha : analysed_content content_
               = firstn (Z.to_nat CHUNK_SIZE) content_).
  { unfold analysed_content.
    destruct (Z.of_nat (length content_) >? CHUNK_SIZE) eqn:Hgt.
    - apply slice_to_nonneg. lia.
    - symmetry. apply firstn_all2.
      rewrite Z.gtb_ltb in Hgt. apply Z.ltb_ge in Hgt. lia. }
  assert (Hs : stored_fragment content_
               = firstn (Z.to_nat CHUNK_SIZE) content_).
  { unfold stored_fragment. rewrite Ha.
    rewrite slice_to_nonneg by lia. apply firstn_all2.
    pose proof (firstn_le_length (Z.to_nat CHUNK_SIZE) content_). lia. }
  split; [congruence|]. split; [exact Ha|]. split.
  - rewrite Hs.
    pose proof (firstn_le_length (Z.to_nat CHUNK_SIZE) content_). lia.
  - intros Hlen. rewrite Hs. apply firstn_all2. lia.
Qed.


(** ** C2: a page fetch that fails *)





